(** * KW Planner web adapter: a shallow embedding of [app.py]

    The Flask module wraps a console keyword-research script.  Two functions
    carry the logic: [run_analysis], which redirects the process-wide console
    surface (builtins.input, sys.stdout, the working directory and the
    script's CSV export routines), runs one operation of the script and puts
    everything back, and [analyze], the POST endpoint that validates a JSON
    body, derives the list of console answers and shapes the JSON response.

    Conventions of the embedding.
    - A Python [str] is a [string]; every [ascii] stands for one code point
      below 256, so the accented letters of the messages are single
      characters.
    - Python values that arrive as JSON are values of [json]; a JSON object is
      the insertion-ordered list of its (unique) keys.  Float literals are not
      represented.
    - An exception is a value of [raised]; fallible code lives in [py].
    - The process-wide state touched by the adapter, and the disk, are a
      [world], threaded explicitly; [os.getcwd] and [os.chdir] can fail.
    - The script is external to the repository.  Loading it can raise; one
      operation of it is an [engine_op]: the tree of what it does to the
      console, the process and the disk, and of what it reads from them. *)

From Stdlib Require Import ZArith List String Ascii Bool Lia DecimalString.
Import ListNotations.
Set Warnings "-register-all".
Open Scope string_scope.
Open Scope Z_scope.

(** ** Python strings *)

Definition chr (n : nat) : string := String (ascii_of_nat n) EmptyString.

(** [str.isspace] on one character, for code points below 256:
    TAB, LF, VT, FF, CR, the separators FS GS RS US, SPACE, NEL and NBSP. *)
Definition isspace (c : ascii) : bool :=
  let n := N_of_ascii c in
  (((9 <=? n) && (n <=? 13)) || ((28 <=? n) && (n <=? 32))
   || (n =? 133) || (n =? 160))%N.

Fixpoint lstrip (s : string) : string :=
  match s with
  | EmptyString => EmptyString
  | String c r => if isspace c then lstrip r else s
  end.

Fixpoint rstrip (s : string) : string :=
  match s with
  | EmptyString => EmptyString
  | String c r =>
      match rstrip r with
      | EmptyString => if isspace c then EmptyString else String c EmptyString
      | t => String c t
      end
  end.

(** [s.strip()] *)
Definition strip (s : string) : string := rstrip (lstrip s).

(** [s.startswith(("http://", "https://"))] *)
Definition startswith_http (s : string) : bool :=
  prefix "http://" s || prefix "https://" s.

(** [not s] for a string *)
Definition str_empty (s : string) : bool :=
  match s with EmptyString => true | _ => false end.

(** [f"{n}"] for an int *)
Definition str_of_int (n : Z) : string := NilZero.string_of_int (Z.to_int n).

(** Whitespace-freeness at both ends, the postcondition of [strip]. *)
Definition first_char (s : string) : option ascii :=
  match s with EmptyString => None | String c _ => Some c end.

Fixpoint last_char (s : string) : option ascii :=
  match s with
  | EmptyString => None
  | String c EmptyString => Some c
  | String _ r => last_char r
  end.

Definition is_space_opt (o : option ascii) : bool :=
  match o with Some c => isspace c | None => false end.

Fixpoint all_space (s : string) : bool :=
  match s with
  | EmptyString => true
  | String c r => isspace c && all_space r
  end.

(** ** Paths *)

(** [posixpath.join(a, *p)]: a component that starts with the separator
    replaces what was joined so far; otherwise it is appended, after a
    separator unless the path is empty or already ends with one. *)
Definition ends_with_sep (path : string) : bool :=
  match last_char path with
  | Some c => Ascii.eqb c "/"%char
  | None => false
  end.

Definition join_step (path b : string) : string :=
  if prefix "/" b then b
  else if str_empty path || ends_with_sep path then path ++ b
  else path ++ "/" ++ b.

Definition path_join (a : string) (p : list string) : string :=
  fold_left join_step p a.

(** ** Exceptions and fallible code *)

(** What a [raise] carries, as far as the two handlers of the module can
    tell: [except Exception] catches the first kind and reads [str(e)];
    exits such as SystemExit or KeyboardInterrupt derive from BaseException
    only and pass through. *)
Inductive raised : Type :=
| PyException (str_e : string)
| PyBaseException (str_e : string).

Inductive py (A : Type) : Type :=
| ok (a : A)
| throw (e : raised).
Arguments ok {A} a.
Arguments throw {A} e.

Definition py_bind {A B} (m : py A) (k : A -> py B) : py B :=
  match m with
  | ok a => k a
  | throw e => throw e
  end.

Notation "x <- m ;; k" := (py_bind m (fun x => k))
  (at level 61, m at next level, right associativity).

(** ** JSON values as Python objects *)

Inductive json : Type :=
| JNull
| JBool (b : bool)
| JInt (n : Z)
| JStr (s : string)
| JList (items : list json)
| JObj (fields : list (string * json)).

Definition type_name (v : json) : string :=
  match v with
  | JNull => "NoneType"
  | JBool _ => "bool"
  | JInt _ => "int"
  | JStr _ => "str"
  | JList _ => "list"
  | JObj _ => "dict"
  end.

(** Truth value of an object, as [if v] and [v or d] test it. *)
Definition truthy (v : json) : bool :=
  match v with
  | JNull => false
  | JBool b => b
  | JInt n => negb (n =? 0)
  | JStr s => negb (str_empty s)
  | JList l => match l with [] => false | _ => true end
  | JObj f => match f with [] => false | _ => true end
  end.

(** [a or b] *)
Definition py_or (a b : json) : json := if truthy a then a else b.

Fixpoint assoc (k : string) (fields : list (string * json)) : option json :=
  match fields with
  | [] => None
  | (k', v) :: rest => if String.eqb k k' then Some v else assoc k rest
  end.

Definition attribute_error (v : json) (attr : string) : raised :=
  PyException ("'" ++ type_name v ++ "' object has no attribute '" ++ attr ++ "'").

(** [d.get(key, default)]; only a dict has the method. *)
Definition py_get (d : json) (key : string) (default : json) : py json :=
  match d with
  | JObj fields =>
      ok (match assoc key fields with Some v => v | None => default end)
  | _ => throw (attribute_error d "get")
  end.

(** [v.strip()]; only a str has the method. *)
Definition py_strip (v : json) : py string :=
  match v with
  | JStr s => ok (strip s)
  | _ => throw (attribute_error v "strip")
  end.

(** [int(v)].  The conversion of a str is CPython's own parser, taken as the
    parameter [int_of_str]: it returns the integer or the ValueError. *)
Definition py_int (int_of_str : string -> py Z) (v : json) : py Z :=
  match v with
  | JInt n => ok n
  | JBool b => ok (if b then 1 else 0)
  | JStr s => int_of_str s
  | _ => throw (PyException
           ("int() argument must be a string, a bytes-like object or a real number, not '"
              ++ type_name v ++ "'"))
  end.

(** [(params.get(key) or "").strip()], the idiom of every branch of
    [analyze]. *)
Definition stripped_param (params : json) (key : string) : py string :=
  v <- py_get params key JNull ;;
  py_strip (py_or v (JStr "")).

(** ** Process-wide state *)

(** The callable bound to [builtins.input]: whatever the host had installed
    (identified by a number, 0 for the interpreter's own), or the closure
    [mock_input] of the running call. *)
Inductive input_fn : Type :=
| host_input (id : nat)
| mock_input_hook.

(** The object bound to [sys.stdout]: a stream of the host, or the StringIO
    [stdout_capture] of the running call. *)
Inductive out_stream : Type :=
| host_stream (id : nat)
| stdout_capture.

(** Observable events, oldest first: rebinding of the two globals, calls of
    [os.chdir] with their success, and calls of an operation of the script. *)
Inductive sys_event : Type :=
| Set_input (f : input_fn)
| Set_stdout (s : out_stream)
| Os_chdir (dir : string) (succeeded : bool)
| Call_operation (option : Z).

Record world : Type := mk_world {
  builtins_input : input_fn;
  sys_stdout : out_stream;
  cwd : string;             (* the path of the working directory *)
  cwd_unlinked : bool;      (* that directory has been removed since *)
  enterable : list string;  (* directories [os.chdir] accepts; paths are absolute *)
  files : list (string * string);  (* the disk: absolute path, content *)
  clock : Z;                (* wall-clock seconds *)
  log : list sys_event
}.

Definition record_event (ev : sys_event) (w : world) : world :=
  mk_world (builtins_input w) (sys_stdout w) (cwd w) (cwd_unlinked w)
           (enterable w) (files w) (clock w) (log w ++ [ev])%list.

(** [builtins.input = f] *)
Definition assign_input (f : input_fn) (w : world) : world :=
  record_event (Set_input f)
    (mk_world f (sys_stdout w) (cwd w) (cwd_unlinked w) (enterable w)
              (files w) (clock w) (log w)).

(** [sys.stdout = s] *)
Definition assign_stdout (s : out_stream) (w : world) : world :=
  record_event (Set_stdout s)
    (mk_world (builtins_input w) s (cwd w) (cwd_unlinked w) (enterable w)
              (files w) (clock w) (log w)).

Definition can_enter (dir : string) (w : world) : bool :=
  existsb (String.eqb dir) (enterable w).

(** [os.getcwd()]: the path, or the FileNotFoundError Python raises when
    the working directory no longer exists. *)
Definition no_such_directory : raised :=
  PyException "[Errno 2] No such file or directory".

Definition os_getcwd (w : world) : py string :=
  if cwd_unlinked w then throw no_such_directory else ok (cwd w).

(** [os.chdir(dir)]: the new world, and [false] where Python raises
    OSError. *)
Definition os_chdir (dir : string) (w : world) : world * bool :=
  if can_enter dir w
  then (record_event (Os_chdir dir true)
          (mk_world (builtins_input w) (sys_stdout w) dir false (enterable w)
                    (files w) (clock w) (log w)), true)
  else (record_event (Os_chdir dir false) w, false).

(** [try: os.chdir(dir) except OSError: pass] *)
Definition chdir_or_pass (dir : string) (w : world) : world :=
  fst (os_chdir dir w).

Definition advance_clock (seconds : Z) (w : world) : world :=
  mk_world (builtins_input w) (sys_stdout w) (cwd w) (cwd_unlinked w)
           (enterable w) (files w) (clock w + seconds) (log w).

(** A file written under a path taken from the working directory, as
    [open(path, "w")] resolves it. *)
Definition write_file (path content : string) (w : world) : world :=
  mk_world (builtins_input w) (sys_stdout w) (cwd w) (cwd_unlinked w)
           (enterable w) ((join_step (cwd w) path, content) :: files w)
           (clock w) (log w).

(** ** The script *)

(** One operation of the script, as the adapter meets it: it prints, reads
    answers with [input(prompt)], calls the module attributes
    [save_to_csv_simple] / [save_to_csv_simple_pruning] and reads their
    result, changes directory, looks at the process and the disk (the
    working directory, the clock, the files of its learning database),
    writes files, spends time on its own work, and ends by returning or
    raising.

    Modelled from the spec: the script file is not in the repository; the
    arguments of an export call are typed as the spec types an export record,
    a file name and a sequence of records. *)
Definition csv_row : Type := list (string * json).

Inductive engine_op : Type :=
| Return_
| Raise_ (e : raised)
| Print (text : string) (k : engine_op)
| Input (prompt : string) (k : string -> engine_op)
| Save_csv (data : list csv_row) (filename : string) (k : bool -> engine_op)
| Save_csv_pruning (data : list csv_row) (filename : string) (k : bool -> engine_op)
| Chdir (dir : string) (k : bool -> engine_op)
| Observe (k : world -> engine_op)
| Write_file (path content : string) (k : engine_op)
| Work (seconds : Z) (k : engine_op).

(** The module object; its attributes called by [run_analysis]. *)
Record script_module : Type := mk_script {
  run_site_analysis : engine_op;
  run_niche_analysis : engine_op;
  run_url_analysis : engine_op;
  run_keyword_variations : engine_op;
  run_theme_analysis : engine_op;
  run_content_pruning_analysis : engine_op;
  show_learning_dashboard : engine_op;
  export_learning_data : engine_op
}.

(** What a deployment fixes: the directory of the script, and what lines
    62-63 ([load_script_module] and [exec_module], run afresh on every call)
    end in, the module object or the exception the script's top-level code
    raised. *)
Record host : Type := mk_host {
  APP_DIR : string;
  exec_module : py script_module
}.

(** ** [run_analysis] *)

(** The locals of one call that its closures share: the StringIO buffer, the
    list [exports] and the deque [input_queue], next to the world. *)
Record run_state : Type := mk_run {
  rs_world : world;
  captured : string;
  exports : list json;
  input_queue : list string
}.

(** [mock_input(prompt="")]: the answer and the deque left. *)
Definition mock_input (prompt : string) (queue : list string)
  : string * list string :=
  match queue with
  | a :: rest => (strip a, rest)
  | [] => ("", [])
  end.

(** The dict appended by [mock_save_to_csv_simple]. *)
Definition export_record (data : list csv_row) (filename : string) : json :=
  JObj [("filename", JStr filename); ("data", JList (map JObj data))].

(** [mock_save_to_csv_simple(data, filename)]: the list after the append,
    and the value returned. *)
Definition mock_save_to_csv_simple (data : list csv_row) (filename : string)
    (exps : list json) : list json * bool :=
  ((exps ++ [export_record data filename])%list, true).

Inductive completion : Type :=
| Finished
| Failed (e : raised).

(** One operation run under the hooks installed by [run_analysis]: text
    printed goes to the buffer, [input] is [mock_input], both export
    routines are [mock_save_to_csv_simple]. *)
Fixpoint exec (op : engine_op) (st : run_state) : run_state * completion :=
  match op with
  | Return_ => (st, Finished)
  | Raise_ e => (st, Failed e)
  | Print text k =>
      exec k (mk_run (rs_world st) (captured st ++ text) (exports st)
                     (input_queue st))
  | Input prompt k =>
      let '(answer, rest) := mock_input prompt (input_queue st) in
      exec (k answer) (mk_run (rs_world st) (captured st) (exports st) rest)
  | Save_csv data filename k
  | Save_csv_pruning data filename k =>
      let '(exps, r) := mock_save_to_csv_simple data filename (exports st) in
      exec (k r) (mk_run (rs_world st) (captured st) exps (input_queue st))
  | Chdir dir k =>
      let '(w, r) := os_chdir dir (rs_world st) in
      exec (k r) (mk_run w (captured st) (exports st) (input_queue st))
  | Observe k => exec (k (rs_world st)) st
  | Write_file path content k =>
      exec k (mk_run (write_file path content (rs_world st)) (captured st)
                     (exports st) (input_queue st))
  | Work seconds k =>
      exec k (mk_run (advance_clock seconds (rs_world st)) (captured st)
                     (exports st) (input_queue st))
  end.

(** The [if option == 1: ... elif option == 8: ... else:] chain. *)
Definition dispatch (m : script_module) (option : Z)
  : Datatypes.option engine_op :=
  if option =? 1 then Some (run_site_analysis m)
  else if option =? 2 then Some (run_niche_analysis m)
  else if option =? 3 then Some (run_url_analysis m)
  else if option =? 4 then Some (run_keyword_variations m)
  else if option =? 5 then Some (run_theme_analysis m)
  else if option =? 6 then Some (run_content_pruning_analysis m)
  else if option =? 7 then Some (show_learning_dashboard m)
  else if option =? 8 then Some (export_learning_data m)
  else None.

(** "Opcao invalida: " with its cedilla, tilde and acute accent. *)
Definition invalid_option_prefix : string :=
  "Op" ++ chr 231 ++ chr 227 ++ "o inv" ++ chr 225 ++ "lida: ".

(** The triple [(stdout_text, exports_list, error_message)]. *)
Definition analysis_result : Type := string * list json * option string.

(** The body of the [try] with its [except Exception] clause: the state
    when the statement is left, and the value returned or the exception
    still in flight. *)
Definition guarded_call (m : script_module) (option : Z) (st : run_state)
  : run_state * py analysis_result :=
  match dispatch m option with
  | Some op =>
      let st0 := mk_run (record_event (Call_operation option) (rs_world st))
                        (captured st) (exports st) (input_queue st) in
      let '(st1, c) := exec op st0 in
      match c with
      | Finished => (st1, ok (captured st1, exports st1, None))
      | Failed (PyException str_e) =>
          (st1, ok (captured st1, exports st1, Some str_e))
      | Failed e => (st1, throw e)
      end
  | None => (st, ok ("", [], Some (invalid_option_prefix ++ str_of_int option)))
  end.

(** The [finally] clause. *)
Definition restore (original_input : input_fn) (old_stdout : out_stream)
    (old_cwd : string) (w : world) : world :=
  chdir_or_pass old_cwd
    (assign_stdout old_stdout (assign_input original_input w)).

Definition run_analysis (h : host) (option : Z) (input_responses : list string)
    (timeout_seconds : Z) (w : world) : world * py analysis_result :=
  match exec_module h with
  | throw e => (w, throw e)
  | ok script_module =>
      let original_input := builtins_input w in
      let w := assign_input mock_input_hook w in
      let old_stdout := sys_stdout w in
      let w := assign_stdout stdout_capture w in
      match os_getcwd w with
      | throw e => (w, throw e)
      | ok old_cwd =>
          let w := chdir_or_pass (APP_DIR h) w in
          let '(st, r) := guarded_call script_module option
                            (mk_run w "" [] input_responses) in
          (restore original_input old_stdout old_cwd (rs_world st), r)
      end
  end.

(** ** The endpoint [analyze] *)

Record response : Type := mk_response {
  body : json;      (* the argument of [jsonify] *)
  status : Z
}.

Definition e_acute : string := chr 233.
Definition o_acute : string := chr 243.
Definition a_tilde : string := chr 227.

Definition required_message (param : string) : string :=
  param ++ " " ++ e_acute ++ " obrigat" ++ o_acute ++ "rio".

Definition both_required_message : string :=
  "domain_url e theme s" ++ a_tilde ++ "o obrigat" ++ o_acute ++ "rios".

Definition option_range_message : string := "option deve ser entre 1 e 8".

(** [return jsonify({"error": msg}), 400] *)
Definition rejection (msg : string) : response :=
  mk_response (JObj [("error", JStr msg)]) 400.

(** [if not u.startswith(("http://", "https://")): u = "https://" + u] *)
Definition default_scheme (u : string) : string :=
  if startswith_http u then u else "https://" ++ u.

(** ["s" if include_sub else "n"] *)
Definition subdomain_answer (include_sub : json) : string :=
  if truthy include_sub then "s" else "n".

(** The branch shared, statement for statement, by options 1 and 6. *)
Definition domain_and_subdomains (params : json) : py (response + list string) :=
  domain_url <- stripped_param params "domain_url" ;;
  if str_empty domain_url
  then ok (inl (rejection (required_message "domain_url")))
  else
    let domain_url := default_scheme domain_url in
    include_sub <- py_get params "include_subdomains" (JBool false) ;;
    ok (inr [domain_url; subdomain_answer include_sub]).

(** Lines 135-179: either the early 400 response or [input_responses]. *)
Definition answer_queue (option : Z) (params : json)
  : py (response + list string) :=
  if option =? 1 then domain_and_subdomains params
  else if option =? 2 then
    niche <- stripped_param params "niche" ;;
    if str_empty niche then ok (inl (rejection (required_message "niche")))
    else ok (inr [niche])
  else if option =? 3 then
    url <- stripped_param params "url" ;;
    if str_empty url then ok (inl (rejection (required_message "url")))
    else ok (inr [default_scheme url])
  else if option =? 4 then
    keyword <- stripped_param params "keyword" ;;
    if str_empty keyword then ok (inl (rejection (required_message "keyword")))
    else ok (inr [keyword])
  else if option =? 5 then
    domain_url <- stripped_param params "domain_url" ;;
    theme <- stripped_param params "theme" ;;
    if str_empty domain_url || str_empty theme
    then ok (inl (rejection both_required_message))
    else ok (inr [default_scheme domain_url; theme])
  else if option =? 6 then domain_and_subdomains params
  else if (option =? 7) || (option =? 8) then ok (inr [])
  else ok (inl (rejection option_range_message)).

(** What [request.get_json()] does with the body: it raises (a werkzeug
    HTTP error, an Exception) or returns the parsed value. *)
Inductive request_body : Type :=
| Unparsable (str_e : string)
| Parsed (j : json).

(** [if err:] on the third element of the triple. *)
Definition err_truthy (err : Datatypes.option string) : bool :=
  match err with
  | Some m => negb (str_empty m)
  | None => false
  end.

Definition json_of_err (err : Datatypes.option string) : json :=
  match err with
  | Some m => JStr m
  | None => JNull
  end.

(** Lines 181-193: the two 200 responses. *)
Definition shape_response (r : analysis_result) : response :=
  let '(output_text, exps, err) := r in
  if err_truthy err
  then mk_response (JObj [("output", JStr output_text);
                          ("exports", JList []);
                          ("error", json_of_err err)]) 200
  else mk_response (JObj [("output", JStr output_text);
                          ("exports", JList exps);
                          ("error", JNull)]) 200.

(** The value of [timeout_seconds] when [analyze] calls [run_analysis]:
    the default of the signature. *)
Definition default_timeout : Z := 600.

Section Endpoint.

(** CPython's [int] on a str. *)
Variable int_of_str : string -> py Z.

(** [data = request.get_json() or {}; option = int(data.get("option", 0))] *)
Definition selector_of (j : json) : py Z :=
  let data := py_or j (JObj []) in
  o <- py_get data "option" (JInt 0) ;;
  py_int int_of_str o.

(** [params = data.get("params", {})] *)
Definition params_of (j : json) : py json :=
  let data := py_or j (JObj []) in
  py_get data "params" (JObj []).

(** Lines 131-179: the selector and either the early response or the
    answers. *)
Definition validate (req : request_body)
  : py (Z * (response + list string)) :=
  match req with
  | Unparsable str_e => throw (PyException str_e)
  | Parsed j =>
      option <- selector_of j ;;
      params <- params_of j ;;
      q <- answer_queue option params ;;
      ok (option, q)
  end.

(** The body of the [try] of [analyze]. *)
Definition analyze_try (h : host) (req : request_body) (w : world)
  : world * py response :=
  match validate req with
  | throw e => (w, throw e)
  | ok (_, inl early) => (w, ok early)
  | ok (option, inr input_responses) =>
      let '(w', r) := run_analysis h option input_responses default_timeout w in
      match r with
      | ok triple => (w', ok (shape_response triple))
      | throw e => (w', throw e)
      end
  end.

(** [analyze]: the [try] with its [except Exception as e:
    return jsonify({"error": str(e)}), 500]. *)
Definition analyze (h : host) (req : request_body) (w : world)
  : world * py response :=
  match analyze_try h req w with
  | (w', throw (PyException str_e)) =>
      (w', ok (mk_response (JObj [("error", JStr str_e)]) 500))
  | other => other
  end.

End Endpoint.

(** A decimal reader, enough to run the endpoint on bodies whose selector is
    written as a string of ASCII digits. *)
Fixpoint digits_value (acc : Z) (s : string) : Datatypes.option Z :=
  match s with
  | EmptyString => Some acc
  | String c r =>
      let n := Z.of_N (N_of_ascii c) in
      if (48 <=? n) && (n <=? 57) then digits_value (10 * acc + (n - 48)) r
      else None
  end.

Definition plain_decimal (s : string) : py Z :=
  match s with
  | EmptyString => throw (PyException "invalid literal for int() with base 10: ''")
  | _ => match digits_value 0 s with
         | Some n => ok n
         | None => throw (PyException "invalid literal for int() with base 10")
         end
  end.

(** ** Reading a response *)

Definition field (name : string) (r : response) : Datatypes.option json :=
  match body r with
  | JObj fields => assoc name fields
  | _ => None
  end.

Definition field_names (v : json) : list string :=
  match v with
  | JObj fields => map fst fields
  | _ => []
  end.

Definition response_exports (r : response) : list json :=
  match field "exports" r with
  | Some (JList l) => l
  | _ => []
  end.

(** The response of a call that answered, if it did. *)
Definition answered (x : world * py response) : Datatypes.option response :=
  match snd x with
  | ok r => Some r
  | throw _ => None
  end.

(** ** Vocabulary of the properties *)

(** The world once lines 68-77 have run, and the run of the selected
    operation from there ([None] when no operation is run: the script did
    not load, [os.getcwd] raised, or the chain does not know the
    selector). *)
Definition redirected (h : host) (w : world) : world :=
  chdir_or_pass (APP_DIR h)
    (assign_stdout stdout_capture (assign_input mock_input_hook w)).

Definition operation_run (h : host) (option : Z) (input_responses : list string)
    (w : world) : Datatypes.option (run_state * completion) :=
  match exec_module h with
  | ok script_module =>
      if cwd_unlinked w then None
      else
        match dispatch script_module option with
        | Some op =>
            Some (exec op (mk_run (record_event (Call_operation option)
                                     (redirected h w))
                                  "" [] input_responses))
        | None => None
        end
  | throw _ => None
  end.

Definition is_rebinding (ev : sys_event) : bool :=
  match ev with
  | Set_input _ | Set_stdout _ => true
  | _ => false
  end.

Definition is_operation_call (ev : sys_event) : bool :=
  match ev with
  | Call_operation _ => true
  | _ => false
  end.


Definition valid_selector (option : Z) : Prop := 1 <= option <= 8.

(** All three pieces of process-wide state are back to what they were. *)
Definition fully_restored (w w' : world) : Prop :=
  builtins_input w' = builtins_input w
  /\ sys_stdout w' = sys_stdout w
  /\ cwd w' = cwd w.

(** The events of lines 70-75 and of the [finally] clause. *)
Definition setup_events (h : host) (w : world) : list sys_event :=
  [Set_input mock_input_hook; Set_stdout stdout_capture;
   Os_chdir (APP_DIR h) (can_enter (APP_DIR h) w)].

Definition teardown_events (w : world) : list sys_event :=
  [Set_input (builtins_input w); Set_stdout (sys_stdout w);
   Os_chdir (cwd w) (can_enter (cwd w) w)].

(** A response that keeps what a failed run produced: the text, every
    export record, and an error that is a string. *)
Definition keeps_partial_results (r : response) (output_text : string)
    (exps : list json) : Prop :=
  field "output" r = Some (JStr output_text)
  /\ (forall e, In e exps -> In e (response_exports r))
  /\ (exists m, field "error" r = Some (JStr m)).

(** The export record of the data model: exactly [name], a string, and
    [payload], a sequence. *)
Definition name_payload_record (e : json) : Prop :=
  field_names e = ["name"; "payload"]
  /\ (exists s l, e = JObj [("name", JStr s); ("payload", JList l)]).

(** The record the code builds. *)
Definition filename_data_record (e : json) : Prop :=
  exists data filename, e = export_record data filename.


(** *** Reading the parameters of a request *)

Definition param_value (fields : list (string * json)) (key : string) : json :=
  match assoc key fields with
  | Some v => v
  | None => JNull
  end.

Definition param_text (fields : list (string * json)) (key : string) : string :=
  match param_value fields key with
  | JStr s => s
  | _ => ""
  end.

Definition include_subdomains_flag (fields : list (string * json)) : bool :=
  truthy (match assoc "include_subdomains" fields with
          | Some v => v
          | None => JBool false
          end).

(** The parameters whose absence is refused; [include_subdomains] has a
    default. *)
Definition required_params (option : Z) : list string :=
  if option =? 1 then ["domain_url"]
  else if option =? 2 then ["niche"]
  else if option =? 3 then ["url"]
  else if option =? 4 then ["keyword"]
  else if option =? 5 then ["domain_url"; "theme"]
  else if option =? 6 then ["domain_url"]
  else [].



Definition supplied (fields : list (string * json)) (key : string) : Prop :=
  exists s, assoc key fields = Some (JStr s) /\ strip s <> "".

(** *** The table of derived answer queues, as the interface section words
    it *)

Definition no_scheme_given (u : string) : bool :=
  negb (prefix "http://" u) && negb (prefix "https://" u).

Definition scheme_defaulted (u : string) : string :=
  if no_scheme_given u then "https://" ++ u else u.

Definition table_queue (selector : Z) (param : string -> string)
    (include_subdomains : bool) : list string :=
  match selector with
  | 1 | 6 => [scheme_defaulted (param "domain_url");
              if include_subdomains then "s" else "n"]
  | 2 => [param "niche"]
  | 3 => [scheme_defaulted (param "url")]
  | 4 => [param "keyword"]
  | 5 => [scheme_defaulted (param "domain_url"); param "theme"]
  | _ => []
  end.

(** The queue of a request read off the table with the parameters as sent. *)
Definition matches_table (option : Z) (fields : list (string * json)) : Prop :=
  answer_queue option (JObj fields)
  = ok (inr (table_queue option (param_text fields)
                         (include_subdomains_flag fields))).

(** *** Prompts *)

(** An operation that raises the prompts in turn and goes on with the
    answers it read. *)
Fixpoint ask_all (prompts : list string) (k : list string -> engine_op)
  : engine_op :=
  match prompts with
  | [] => k []
  | p :: rest => Input p (fun a => ask_all rest (fun l => k (a :: l)))
  end.

(** What [n] successive prompts are answered from a queue. *)
Definition answers_to (n : nat) (queue : list string) : list string :=
  (map strip (firstn n queue) ++ repeat "" (n - List.length queue))%list.

(** *** Duration *)

Definition reports_failure (r : py analysis_result) : Prop :=
  match r with
  | ok (_, _, Some _) => True
  | ok (_, _, None) => False
  | throw _ => True
  end.

(** A call that ran past its [timeout_seconds] is reported as failed. *)
Definition timeout_enforced (h : host) (option : Z) (input_responses : list string)
    (timeout_seconds : Z) (w : world) : Prop :=
  let res := run_analysis h option input_responses timeout_seconds w in
  clock (fst res) - clock w > timeout_seconds -> reports_failure (snd res).

(** The result depends on [timeout_seconds]. *)
Definition timeout_matters : Prop :=
  exists h option input_responses w t1 t2,
    run_analysis h option input_responses t1 w
    <> run_analysis h option input_responses t2 w.

(** ** Sample deployments *)

Definition every_operation (op : engine_op) : script_module :=
  mk_script op op op op op op op op.

Definition sample_row : csv_row := [("keyword", JStr "seo"); ("volume", JInt 10)].

(** Prints, exports one record, then raises. *)
Definition op_partial_then (e : raised) : engine_op :=
  Print "partial" (Save_csv [sample_row] "out.csv" (fun _ => Raise_ e)).

(** Prints, exports one record through the pruning routine, returns. *)
Definition op_export : engine_op :=
  Print "saved" (Save_csv_pruning [sample_row] "out.csv" (fun _ => Return_)).

Definition op_echo_three : engine_op :=
  ask_all ["a? "; "b? "; "c? "]
    (fun l => Print (String.concat "|" l) Return_).

Definition op_slow (seconds : Z) : engine_op :=
  Work seconds (Print "done" Return_).

Definition sample_host (op : engine_op) : host :=
  mk_host "/srv/kw/app" (ok (every_operation op)).

Definition sample_world : world :=
  mk_world (host_input 0) (host_stream 0) "/srv/kw/backend" false
           ["/srv/kw/backend"; "/srv/kw/app"] [] 0 [].

(** The process sits in a directory it may no longer enter. *)
Definition locked_out_world : world :=
  mk_world (host_input 0) (host_stream 0) "/srv/kw/backend" false
           ["/srv/kw/app"] [] 0 [].

Definition sample_request (option : Z) (params : list (string * json))
  : request_body :=
  Parsed (JObj [("option", JInt option); ("params", JObj params)]).

(** ** Start-up of the module *)

Definition script_name : string := "arquivo-base-fixed.py".

Definition script_not_found (script_path : string) : raised :=
  PyException ("Script n" ++ a_tilde ++ "o encontrado: " ++ script_path
               ++ ". Coloque arquivo-base-fixed.py em KW Planner/app/.").

(** Lines 23-30: from [BASE_DIR], the directory of [app.py], and
    [os.path.exists], the pair [(APP_DIR, SCRIPT_PATH)] or the
    FileNotFoundError raised at import. *)
Definition module_paths (path_exists : string -> bool) (BASE_DIR : string)
  : py (string * string) :=
  let APP_DIR := path_join BASE_DIR [".."; "app"] in
  let SCRIPT_PATH := path_join APP_DIR [script_name] in
  let SCRIPT_PATH :=
    if negb (path_exists SCRIPT_PATH)
    then path_join BASE_DIR [".."; "app"; script_name]
    else SCRIPT_PATH in
  if negb (path_exists SCRIPT_PATH)
  then throw (script_not_found SCRIPT_PATH)
  else ok (APP_DIR, SCRIPT_PATH).

(** ** More vocabulary *)

(** An operation that makes the export calls in turn and goes on with the
    values they returned. *)
Fixpoint export_all (calls : list (list csv_row * string))
    (k : list bool -> engine_op) : engine_op :=
  match calls with
  | [] => k []
  | (data, filename) :: rest =>
      Save_csv data filename (fun r => export_all rest (fun l => k (r :: l)))
  end.

(** The number of answers each selector queues. *)
Definition queue_length (option : Z) : nat :=
  if (option =? 1) || (option =? 5) || (option =? 6) then 2
  else if (option =? 2) || (option =? 3) || (option =? 4) then 1
  else 0.

(** An answer that [mock_input] hands over as it is. *)
Definition ready_answer (a : string) : Prop := a <> "" /\ strip a = a.

(** The three fields of a 200 response, the single field of the others. *)
Definition result_shaped (r : response) : Prop :=
  status r = 200
  /\ field_names (body r) = ["output"; "exports"; "error"]
  /\ (exists out exps, field "output" r = Some (JStr out)
                       /\ field "exports" r = Some (JList exps)).

Definition error_shaped (r : response) : Prop :=
  (status r = 400 \/ status r = 500)
  /\ field_names (body r) = ["error"]
  /\ (exists msg, field "error" r = Some (JStr msg)).

(** *** Reaching the operation *)

(** The call gets to the [try] statement of line 79: the script loaded and
    [os.getcwd()] answered. *)
Definition reaches_try (h : host) (w : world) : Prop :=
  (exists m, exec_module h = ok m) /\ cwd_unlinked w = false.

(** The world in which [os.getcwd()] is called on line 73: both globals
    rebound, nothing else done. *)
Definition left_redirected (w : world) : world :=
  assign_stdout stdout_capture (assign_input mock_input_hook w).

(** *** Prompts answered as queued *)

(** The first prompts receive the queued answers themselves. *)
Definition delivered_as_queued (n : nat) (queue : list string) : Prop :=
  forall i, (i < n)%nat -> (i < List.length queue)%nat ->
            nth i (answers_to n queue) "" = nth i queue "".

(** *** Requests that omit a parameter *)





(** *** More samples *)

(** The process sits in a directory that has been removed. *)
Definition orphaned_world : world :=
  mk_world (host_input 0) (host_stream 0) "/srv/kw/backend" true
           ["/srv/kw/app"] [] 0 [].


(** * Properties *)

(** ** Stripping *)

Lemma lstrip_first_not_space (s : string) :
  is_space_opt (first_char (lstrip s)) = false.
Proof.
  induction s as [|c r IH]; simpl; auto.
  destruct (isspace c) eqn:E; simpl; auto.
Qed.

Lemma rstrip_last_not_space (s : string) :
  is_space_opt (last_char (rstrip s)) = false.
Proof.
  induction s as [|c r IH]; simpl; auto.
  destruct (rstrip r) as [|c' t] eqn:E.
  - destruct (isspace c) eqn:Ec; simpl; auto.
  - exact IH.
Qed.

Lemma rstrip_keeps_first (s : string) :
  is_space_opt (first_char s) = false ->
  is_space_opt (first_char (rstrip s)) = false.
Proof.
  destruct s as [|c r]; simpl; auto.
  intros Hc. destruct (rstrip r); simpl; auto.
  rewrite Hc. simpl. exact Hc.
Qed.

Lemma lstrip_all_space (s : string) :
  all_space s = true -> lstrip s = "".
Proof.
  induction s as [|c r IH]; simpl; auto.
  intros H. apply andb_true_iff in H as [Hc Hr].
  rewrite Hc. auto.
Qed.

Lemma strip_no_leading_space (s : string) :
  is_space_opt (first_char (strip s)) = false.
Proof. apply rstrip_keeps_first, lstrip_first_not_space. Qed.

Lemma strip_no_trailing_space (s : string) :
  is_space_opt (last_char (strip s)) = false.
Proof. apply rstrip_last_not_space. Qed.

Lemma strip_all_space (s : string) :
  all_space s = true -> strip s = "".
Proof. intros H. unfold strip. rewrite (lstrip_all_space s H). reflexivity. Qed.

Lemma str_empty_true (s : string) : str_empty s = true <-> s = "".
Proof. destruct s; simpl; split; congruence. Qed.

Lemma str_empty_false (s : string) : str_empty s = false <-> s <> "".
Proof. destruct s; simpl; split; congruence. Qed.

(** ** What an operation can and cannot touch *)

Lemma os_chdir_frame (dir : string) (w : world) :
  let w' := fst (os_chdir dir w) in
  builtins_input w' = builtins_input w
  /\ sys_stdout w' = sys_stdout w
  /\ enterable w' = enterable w
  /\ clock w' = clock w
  /\ log w' = (log w ++ [Os_chdir dir (snd (os_chdir dir w))])%list.
Proof.
  unfold os_chdir. destruct (can_enter dir w); simpl; auto 6.
Qed.

Lemma os_chdir_cwd (dir : string) (w : world) :
  can_enter dir w = true -> cwd (fst (os_chdir dir w)) = dir.
Proof. intros H. unfold os_chdir. rewrite H. reflexivity. Qed.

(** Instantiate the induction hypothesis at the state the continuation is
    run in. *)
Ltac continue_with IH :=
  match goal with
  | |- context [exec _ ?s] => first [exact (IH s) | exact (IH _ s)]
  end.

(** Running an operation leaves both bindings and the set of directories
    alone, and adds to the log nothing but [os.chdir] calls. *)
Lemma exec_frame (op : engine_op) :
  forall st,
    let st' := fst (exec op st) in
    builtins_input (rs_world st') = builtins_input (rs_world st)
    /\ sys_stdout (rs_world st') = sys_stdout (rs_world st)
    /\ enterable (rs_world st') = enterable (rs_world st)
    /\ exists evs,
         log (rs_world st') = (log (rs_world st) ++ evs)%list
         /\ Forall (fun ev => is_rebinding ev = false
                              /\ is_operation_call ev = false) evs.
Proof.
  induction op as [ | e | text k IH | prompt k IH | data f k IH
                  | data f k IH | dir k IH | k IH | path content k IH
                  | secs k IH ]; intros st; simpl.
  - repeat split; auto. exists []. rewrite app_nil_r. auto.
  - repeat split; auto. exists []. rewrite app_nil_r. auto.
  - continue_with IH.
  - destruct (mock_input prompt (input_queue st)) as [a rest]. continue_with IH.
  - continue_with IH.
  - continue_with IH.
  - destruct (os_chdir dir (rs_world st)) as [w r] eqn:E.
    pose proof (os_chdir_frame dir (rs_world st)) as F. rewrite E in F.
    simpl in F. destruct F as (Fi & Fo & Fe & _ & Fl).
    specialize (IH r (mk_run w (captured st) (exports st) (input_queue st))).
    simpl in IH. destruct IH as (Hi & Ho & He & evs & Hl & Hall).
    repeat split; try congruence.
    exists (Os_chdir dir r :: evs). split.
    + rewrite Hl, Fl, <- app_assoc. reflexivity.
    + constructor; auto.
  - exact (IH (rs_world st) st).
  - specialize (IH (mk_run (write_file path content (rs_world st)) (captured st)
                           (exports st) (input_queue st))).
    exact IH.
  - specialize (IH (mk_run (advance_clock secs (rs_world st)) (captured st)
                           (exports st) (input_queue st))).
    exact IH.
Qed.

(** Every record in [exports] is one [mock_save_to_csv_simple] built. *)
Lemma exec_exports_shape (op : engine_op) :
  forall st,
    Forall filename_data_record (exports st) ->
    Forall filename_data_record (exports (fst (exec op st))).
Proof.
  induction op as [ | e | text k IH | prompt k IH | data f k IH
                  | data f k IH | dir k IH | k IH | path content k IH
                  | secs k IH ]; intros st H; simpl.
  - exact H.
  - exact H.
  - apply IH. exact H.
  - destruct (mock_input prompt (input_queue st)) as [a rest]. apply IH. exact H.
  - apply IH. simpl. apply Forall_app. split; auto.
    constructor; auto. exists data, f. reflexivity.
  - apply IH. simpl. apply Forall_app. split; auto.
    constructor; auto. exists data, f. reflexivity.
  - destruct (os_chdir dir (rs_world st)) as [w r]. apply IH. exact H.
  - apply IH. exact H.
  - apply IH. exact H.
  - apply IH. exact H.
Qed.

(** ** The shape of a call of [run_analysis] *)

Lemma run_analysis_unfold (h : host) (option : Z) (q : list string) (t : Z)
    (w : world) (m : script_module) :
  exec_module h = ok m ->
  cwd_unlinked w = false ->
  run_analysis h option q t w
  = let '(st, r) := guarded_call m option (mk_run (redirected h w) "" [] q) in
    (restore (builtins_input w) (sys_stdout w) (cwd w) (rs_world st), r).
Proof.
  intros Hm Hc. unfold run_analysis, os_getcwd. rewrite Hm. simpl.
  rewrite Hc. reflexivity.
Qed.

Lemma run_analysis_not_loaded (h : host) (option : Z) (q : list string) (t : Z)
    (w : world) (e : raised) :
  exec_module h = throw e ->
  run_analysis h option q t w = (w, throw e).
Proof. intros Hm. unfold run_analysis. rewrite Hm. reflexivity. Qed.

Lemma run_analysis_no_cwd (h : host) (option : Z) (q : list string) (t : Z)
    (w : world) (m : script_module) :
  exec_module h = ok m ->
  cwd_unlinked w = true ->
  run_analysis h option q t w = (left_redirected w, throw no_such_directory).
Proof.
  intros Hm Hc. unfold run_analysis, os_getcwd. rewrite Hm. simpl.
  rewrite Hc. reflexivity.
Qed.


Lemma dispatch_valid (m : script_module) (option : Z) :
  valid_selector option -> exists op, dispatch m option = Some op.
Proof.
  unfold valid_selector, dispatch. intros H.
  repeat match goal with
         | |- context [?a =? ?b] => destruct (Z.eqb_spec a b); [eauto|]
         end.
  lia.
Qed.

Lemma operation_run_reaches (h : host) (option : Z) (q : list string)
    (w : world) (st : run_state) (c : completion) :
  operation_run h option q w = Some (st, c) ->
  exists m op,
    exec_module h = ok m
    /\ cwd_unlinked w = false
    /\ dispatch m option = Some op
    /\ exec op (mk_run (record_event (Call_operation option) (redirected h w))
                       "" [] q) = (st, c).
Proof.
  unfold operation_run.
  destruct (exec_module h) as [m|e] eqn:Hm; [|discriminate].
  destruct (cwd_unlinked w) eqn:Hc; [discriminate|].
  destruct (dispatch m option) as [op|] eqn:Hd; [|discriminate].
  intros H. injection H as H. exists m, op.
  split; [reflexivity|]. split; [reflexivity|]. split; [exact Hd|exact H].
Qed.

Lemma operation_run_total (h : host) (option : Z) (q : list string)
    (w : world) (m : script_module) :
  exec_module h = ok m ->
  cwd_unlinked w = false ->
  valid_selector option ->
  exists st c, operation_run h option q w = Some (st, c).
Proof.
  intros Hm Hc Hv. unfold operation_run. rewrite Hm, Hc.
  destruct (dispatch_valid m option Hv) as [op ->].
  destruct (exec op _) as [st c]. eauto.
Qed.

Lemma guarded_call_run (h : host) (option : Z) (q : list string) (w : world)
    (st : run_state) (c : completion) :
  operation_run h option q w = Some (st, c) ->
  exists m,
    exec_module h = ok m
    /\ cwd_unlinked w = false
    /\ guarded_call m option (mk_run (redirected h w) "" [] q)
       = (st, match c with
              | Finished => ok (captured st, exports st, None)
              | Failed (PyException str_e) =>
                  ok (captured st, exports st, Some str_e)
              | Failed e => throw e
              end).
Proof.
  intros H. destruct (operation_run_reaches h option q w st c H)
    as (m & op & Hm & Hc & Hd & He).
  exists m. split; [exact Hm|]. split; [exact Hc|].
  unfold guarded_call. rewrite Hd. simpl. rewrite He.
  destruct c as [|[s|s]]; reflexivity.
Qed.


Lemma redirected_frame (h : host) (w : world) :
  enterable (redirected h w) = enterable w
  /\ clock (redirected h w) = clock w
  /\ files (redirected h w) = files w
  /\ log (redirected h w)
     = (log w ++ [Set_input mock_input_hook; Set_stdout stdout_capture;
                  Os_chdir (APP_DIR h) (can_enter (APP_DIR h) w)])%list.
Proof.
  unfold redirected, chdir_or_pass, os_chdir, can_enter. simpl.
  destruct (existsb (String.eqb (APP_DIR h)) (enterable w)); simpl;
    repeat split; rewrite <- !app_assoc; reflexivity.
Qed.

Lemma restore_spec (f : input_fn) (s : out_stream) (dir : string) (w : world) :
  let w' := restore f s dir w in
  builtins_input w' = f
  /\ sys_stdout w' = s
  /\ clock w' = clock w
  /\ files w' = files w
  /\ enterable w' = enterable w
  /\ log w' = (log w ++ [Set_input f; Set_stdout s;
                         Os_chdir dir (can_enter dir w)])%list
  /\ cwd w' = (if can_enter dir w then dir else cwd w).
Proof.
  unfold restore, chdir_or_pass, os_chdir, can_enter. simpl.
  destruct (existsb (String.eqb dir) (enterable w)); simpl;
    repeat split; rewrite <- !app_assoc; reflexivity.
Qed.

(** The state in which the operation is left: the bindings of the
    redirection and the directories as they were, and a log that continues
    the log of the redirection with the events of the operation. *)
Lemma operation_run_frame (h : host) (option : Z) (q : list string)
    (w : world) (st : run_state) (c : completion) :
  operation_run h option q w = Some (st, c) ->
  enterable (rs_world st) = enterable w
  /\ exists engine_events,
       log (rs_world st)
       = (log w ++ setup_events h w
            ++ Call_operation option :: engine_events)%list
       /\ Forall (fun ev => is_rebinding ev = false
                            /\ is_operation_call ev = false) engine_events.
Proof.
  intros H. destruct (operation_run_reaches h option q w st c H)
    as (m & op & _ & _ & _ & He).
  pose proof (exec_frame op (mk_run (record_event (Call_operation option)
                                       (redirected h w)) "" [] q)) as F.
  rewrite He in F. simpl in F. destruct F as (_ & _ & Fe & evs & Fl & Fall).
  destruct (redirected_frame h w) as (Re & _ & _ & Rl).
  split; [congruence|].
  exists evs. split; [|exact Fall].
  rewrite Fl, Rl. unfold setup_events. rewrite <- !app_assoc. reflexivity.
Qed.

(** What the [finally] clause makes of the world the operation left. *)
Lemma run_analysis_after_operation (h : host) (option : Z) (q : list string)
    (t : Z) (w : world) (st : run_state) (c : completion) :
  operation_run h option q w = Some (st, c) ->
  let w' := fst (run_analysis h option q t w) in
  builtins_input w' = builtins_input w
  /\ sys_stdout w' = sys_stdout w
  /\ clock w' = clock (rs_world st)
  /\ files w' = files (rs_world st)
  /\ cwd w' = (if can_enter (cwd w) w then cwd w else cwd (rs_world st))
  /\ log w' = (log (rs_world st) ++ teardown_events w)%list.
Proof.
  intros H. destruct (operation_run_frame h option q w st c H) as (He & _).
  destruct (guarded_call_run h option q w st c H) as (m & Hm & Hc & G).
  cbv zeta. rewrite (run_analysis_unfold h option q t w m Hm Hc), G.
  pose proof (restore_spec (builtins_input w) (sys_stdout w) (cwd w)
                           (rs_world st)) as S.
  simpl in S |- *. destruct S as (Si & So & Sk & Sf & _ & Sl & Sc).
  assert (E : can_enter (cwd w) (rs_world st) = can_enter (cwd w) w)
    by (unfold can_enter; rewrite He; reflexivity).
  rewrite E in Sl, Sc. unfold teardown_events. auto 8.
Qed.

Lemma run_analysis_result (h : host) (option : Z) (q : list string) (t : Z)
    (w : world) (st : run_state) (c : completion) :
  operation_run h option q w = Some (st, c) ->
  snd (run_analysis h option q t w)
  = match c with
    | Finished => ok (captured st, exports st, None)
    | Failed (PyException str_e) => ok (captured st, exports st, Some str_e)
    | Failed e => throw e
    end.
Proof.
  intros H. destruct (guarded_call_run h option q w st c H) as (m & Hm & Hc & G).
  rewrite (run_analysis_unfold h option q t w m Hm Hc), G. reflexivity.
Qed.

(** ** Restoration of the process-wide state *)

(** C3 (as amended).  Take a call with a valid selector that gets to its
    [try] statement (the script loaded, [os.getcwd()] answered).  The
    selected operation is run, and however it ends - it returns, it raises
    an Exception, it raises past [except Exception] - the world returned has
    [builtins.input] and [sys.stdout] bound as before the call; the adapter
    adds to the log, before the operation, the three redirections and,
    after it, the [finally] clause and nothing else: each binding put back
    once and one [os.chdir] to the previous directory.  The working
    directory is the previous one when that directory can be entered, and
    otherwise the one the operation ended in. *)
Theorem run_analysis_teardown (h : host) (option : Z) (q : list string)
    (t : Z) (w : world) :
  reaches_try h w ->
  valid_selector option ->
  exists st c,
    operation_run h option q w = Some (st, c)
    /\ snd (run_analysis h option q t w)
       = match c with
         | Finished => ok (captured st, exports st, None)
         | Failed (PyException str_e) => ok (captured st, exports st, Some str_e)
         | Failed e => throw e
         end
    /\ builtins_input (fst (run_analysis h option q t w)) = builtins_input w
    /\ sys_stdout (fst (run_analysis h option q t w)) = sys_stdout w
    /\ cwd (fst (run_analysis h option q t w))
       = (if can_enter (cwd w) w then cwd w else cwd (rs_world st))
    /\ log (fst (run_analysis h option q t w))
       = (log (rs_world st) ++ teardown_events w)%list
    /\ exists engine_events,
         log (rs_world st)
         = (log w ++ setup_events h w
              ++ Call_operation option :: engine_events)%list
         /\ Forall (fun ev => is_rebinding ev = false
                              /\ is_operation_call ev = false) engine_events.
Proof.
  intros [[m Hm] Hc] Hv.
  destruct (operation_run_total h option q w m Hm Hc Hv) as (st & c & H).
  exists st, c. split; [exact H|].
  split; [exact (run_analysis_result h option q t w st c H)|].
  destruct (run_analysis_after_operation h option q t w st c H)
    as (Hi & Ho & _ & _ & Hd & Hl).
  split; [exact Hi|]. split; [exact Ho|]. split; [exact Hd|].
  split; [exact Hl|].
  exact (proj2 (operation_run_frame h option q w st c H)).
Qed.

Lemma run_analysis_teardown_witness :
  fully_restored sample_world
    (fst (run_analysis (sample_host (op_partial_then (PyBaseException "exit")))
                       3 ["kw"] 600 sample_world))
  /\ snd (run_analysis (sample_host (op_partial_then (PyBaseException "exit")))
                       3 ["kw"] 600 sample_world)
     = throw (PyBaseException "exit").
Proof.
  assert (R : reaches_try (sample_host (op_partial_then (PyBaseException "exit")))
                          sample_world)
    by (split; [eexists; reflexivity|reflexivity]).
  assert (V : valid_selector 3) by (unfold valid_selector; lia).
  destruct (run_analysis_teardown
              (sample_host (op_partial_then (PyBaseException "exit")))
              3 ["kw"] 600 sample_world R V)
    as (st & c & Hrun & Hres & Hi & Ho & Hd & _).
  split; [split; [exact Hi|split; [exact Ho|exact Hd]]|].
  rewrite Hres. injection Hrun as _ <-. reflexivity.
Defined.

(** C3 as stated fails, in two ways.  By design: the selector is valid, the
    operation returns at once, and the call ends in the script's directory
    because the previous one cannot be entered again, the OSError being
    swallowed.  And before the [try] statement: when [os.getcwd()] raises,
    the call ends with both globals still rebound. *)
Lemma cwd_not_restored_when_locked_out :
  (valid_selector 7
   /\ ~ fully_restored locked_out_world
          (fst (run_analysis (sample_host Return_) 7 [] 600 locked_out_world)))
  /\ (valid_selector 7
      /\ builtins_input
           (fst (run_analysis (sample_host Return_) 7 [] 600 orphaned_world))
         = mock_input_hook
      /\ ~ fully_restored orphaned_world
             (fst (run_analysis (sample_host Return_) 7 [] 600 orphaned_world))).
Proof.
  assert (V : valid_selector 7) by (unfold valid_selector; lia).
  split; [split; [exact V|]|split; [exact V|split; [reflexivity|]]].
  - intros (_ & _ & H). vm_compute in H. discriminate.
  - intros (H & _). vm_compute in H. discriminate.
Qed.

(** ** The two ways through [analyze] *)

Section EndpointFacts.

Variable int_of_str : string -> py Z.

Lemma analyze_early (h : host) (req : request_body) (w : world)
    (option : Z) (early : response) :
  validate int_of_str req = ok (option, inl early) ->
  analyze int_of_str h req w = (w, ok early).
Proof. intros H. unfold analyze, analyze_try. rewrite H. reflexivity. Qed.

Lemma analyze_runs (h : host) (req : request_body) (w : world)
    (option : Z) (q : list string) :
  validate int_of_str req = ok (option, inr q) ->
  analyze int_of_str h req w
  = match run_analysis h option q default_timeout w with
    | (w', ok triple) => (w', ok (shape_response triple))
    | (w', throw (PyException str_e)) =>
        (w', ok (mk_response (JObj [("error", JStr str_e)]) 500))
    | (w', throw e) => (w', throw e)
    end.
Proof.
  intros H. unfold analyze, analyze_try. rewrite H.
  destruct (run_analysis h option q default_timeout w) as [w' [triple|[m|m]]];
    reflexivity.
Qed.

Lemma selector_needs_dict (j : json) (option : Z) :
  selector_of int_of_str j = ok option ->
  exists fields, py_or j (JObj []) = JObj fields.
Proof.
  unfold selector_of. destruct (py_or j (JObj [])) as [| | | | |fields];
    simpl; try discriminate. eauto.
Qed.

Lemma validate_parsed (j : json) (option : Z) (params : json) :
  selector_of int_of_str j = ok option ->
  params_of j = ok params ->
  validate int_of_str (Parsed j)
  = (q <- answer_queue option params ;; ok (option, q)).
Proof. intros Hs Hp. unfold validate. rewrite Hs, Hp. reflexivity. Qed.

End EndpointFacts.



Lemma rejection_error_shaped (msg : string) : error_shaped (rejection msg).
Proof.
  unfold error_shaped, rejection, field. simpl.
  split; [left; reflexivity|]. split; [reflexivity|]. eexists; reflexivity.
Qed.

(** ** Selectors outside 1..8 *)




(** ** The timeout parameter *)

(** C9 (as amended).  [run_analysis] accepts [timeout_seconds] and never
    consults it.  Two calls that differ only in that argument return the
    same world and the same result.  Whatever the timeout, and however long
    the operation ran, the call reports what the operation ended with, and
    the teardown takes place: both bindings as before the call, the working
    directory the previous one when it can be entered, the [finally] clause
    the last thing in the log.  And an operation can run for any number of
    seconds, under any timeout, and be reported as a success. *)
Theorem timeout_seconds_unused :
  (forall h option q w t1 t2,
      run_analysis h option q t1 w = run_analysis h option q t2 w)
  /\ (forall h option q w t st c,
        operation_run h option q w = Some (st, c) ->
        let res := run_analysis h option q t w in
        snd res = match c with
                  | Finished => ok (captured st, exports st, None)
                  | Failed (PyException str_e) =>
                      ok (captured st, exports st, Some str_e)
                  | Failed e => throw e
                  end
        /\ clock (fst res) = clock (rs_world st)
        /\ builtins_input (fst res) = builtins_input w
        /\ sys_stdout (fst res) = sys_stdout w
        /\ cwd (fst res)
           = (if can_enter (cwd w) w then cwd w else cwd (rs_world st))
        /\ log (fst res) = (log (rs_world st) ++ teardown_events w)%list)
  /\ (forall seconds t w,
        cwd_unlinked w = false ->
        exists st,
          operation_run (sample_host (op_slow seconds)) 7 [] w
          = Some (st, Finished)
          /\ clock (rs_world st) = clock w + seconds
          /\ snd (run_analysis (sample_host (op_slow seconds)) 7 [] t w)
             = ok ("done", [], None)).
Proof.
  split; [reflexivity|]. split.
  - intros h option q w t st c H. cbv zeta.
    split; [exact (run_analysis_result h option q t w st c H)|].
    destruct (run_analysis_after_operation h option q t w st c H)
      as (Hi & Ho & Hk & _ & Hd & Hl).
    auto 6.
  - intros seconds t w Hc.
    assert (H : operation_run (sample_host (op_slow seconds)) 7 [] w
                = Some (fst (exec (op_slow seconds)
                              (mk_run (record_event (Call_operation 7)
                                         (redirected (sample_host (op_slow seconds)) w))
                                      "" [] [])), Finished))
      by (unfold operation_run; simpl; rewrite Hc; reflexivity).
    eexists. split; [exact H|]. split.
    + simpl. destruct (redirected_frame (sample_host (op_slow seconds)) w)
        as (_ & Rc & _).
      rewrite Rc. reflexivity.
    + rewrite (run_analysis_result _ _ _ t _ _ _ H). reflexivity.
Qed.

Lemma timeout_seconds_unused_witness :
  exists st,
    operation_run (sample_host (op_slow 601)) 7 [] sample_world
    = Some (st, Finished)
    /\ clock (rs_world st) - clock sample_world > 600
    /\ snd (run_analysis (sample_host (op_slow 601)) 7 [] 600 sample_world)
       = ok ("done", [], None)
    /\ fully_restored sample_world
         (fst (run_analysis (sample_host (op_slow 601)) 7 [] 600 sample_world)).
Proof.
  destruct timeout_seconds_unused as (_ & T & S).
  destruct (S 601 600 sample_world eq_refl) as (st & Hrun & Hk & Hres).
  exists st. split; [exact Hrun|]. split; [rewrite Hk; reflexivity|].
  split; [exact Hres|].
  destruct (T _ _ _ _ 600 _ _ Hrun) as (_ & _ & Hi & Ho & Hd & _).
  split; [exact Hi|]. split; [exact Ho|]. exact Hd.
Defined.

(** C9 as stated fails in both of its readings: a call that ran 601 seconds
    under a timeout of 600 is reported as a success, and no two values of the
    timeout tell two calls apart. *)
Lemma timeout_not_enforced :
  ~ timeout_enforced (sample_host (op_slow 601)) 7 [] 600 sample_world
  /\ ~ timeout_matters.
Proof.
  split.
  - unfold timeout_enforced. intros H. apply H. vm_compute. reflexivity.
  - intros (h & option & q & w & t1 & t2 & H). apply H. reflexivity.
Qed.

(** ** Failures of the operation *)

Lemma run_analysis_exports_shape (h : host) (option : Z) (q : list string)
    (t : Z) (w : world) (out : string) (exps : list json)
    (err : Datatypes.option string) :
  snd (run_analysis h option q t w) = ok (out, exps, err) ->
  Forall filename_data_record exps.
Proof.
  destruct (exec_module h) as [m|e] eqn:Hm;
    [|rewrite (run_analysis_not_loaded h option q t w e Hm); discriminate].
  destruct (cwd_unlinked w) eqn:Hc;
    [rewrite (run_analysis_no_cwd h option q t w m Hm Hc); discriminate|].
  rewrite (run_analysis_unfold h option q t w m Hm Hc). unfold guarded_call.
  destruct (dispatch m option) as [op|].
  - match goal with
    | |- context [exec op ?s] =>
        pose proof (exec_exports_shape op s (Forall_nil _)) as F;
        destruct (exec op s) as [st1 c]
    end.
    simpl in F. destruct c as [|[msg|msg]]; simpl; intros H;
      try discriminate; injection H as _ <- _; exact F.
  - simpl. intros H. injection H as _ <- _. constructor.
Qed.

(** C1 (as amended).  When the request passes validation and the selected
    operation raises an Exception whose message is not empty, [run_analysis]
    returns the text captured and the export records appended up to the
    failure together with the message, and the endpoint answers 200 with
    that text and that message, and with an empty [exports] list: the
    export records of a failed run stop at the endpoint. *)
Theorem engine_error_response (int_of_str : string -> py Z) (h : host)
    (req : request_body) (w : world) (option : Z) (q : list string)
    (st : run_state) (msg : string) :
  validate int_of_str req = ok (option, inr q) ->
  operation_run h option q w = Some (st, Failed (PyException msg)) ->
  msg <> "" ->
  snd (run_analysis h option q default_timeout w)
  = ok (captured st, exports st, Some msg)
  /\ answered (analyze int_of_str h req w)
     = Some (mk_response (JObj [("output", JStr (captured st));
                                ("exports", JList []);
                                ("error", JStr msg)]) 200).
Proof.
  intros Hv Hrun Hmsg.
  pose proof (run_analysis_result h option q default_timeout w st _ Hrun) as R.
  simpl in R. split; [exact R|].
  rewrite (analyze_runs int_of_str h req w option q Hv).
  destruct (run_analysis h option q default_timeout w) as [w' r].
  simpl in R. subst r. unfold answered, shape_response. simpl.
  apply str_empty_false in Hmsg. rewrite Hmsg. reflexivity.
Qed.

Lemma engine_error_response_witness :
  answered (analyze plain_decimal
              (sample_host (op_partial_then (PyException "boom")))
              (sample_request 7 []) sample_world)
  = Some (mk_response (JObj [("output", JStr "partial");
                             ("exports", JList []);
                             ("error", JStr "boom")]) 200).
Proof.
  refine (proj2 (engine_error_response plain_decimal
                   (sample_host (op_partial_then (PyException "boom")))
                   (sample_request 7 []) sample_world 7 []
                   (fst (exec (op_partial_then (PyException "boom"))
                              (mk_run (record_event (Call_operation 7)
                                         (redirected
                                            (sample_host
                                               (op_partial_then (PyException "boom")))
                                            sample_world))
                                      "" [] [])))
                   "boom" _ _ _)).
  - reflexivity.
  - reflexivity.
  - discriminate.
Defined.

(** C1 as stated fails: the operation printed, exported one record and
    raised "boom"; the response holds the text and the error but not the
    record. *)
Lemma partial_exports_dropped :
  (exists st,
      operation_run (sample_host (op_partial_then (PyException "boom"))) 7 []
        sample_world
      = Some (st, Failed (PyException "boom"))
      /\ captured st = "partial"
      /\ exports st = [export_record [sample_row] "out.csv"])
  /\ exists r,
       answered (analyze plain_decimal
                   (sample_host (op_partial_then (PyException "boom")))
                   (sample_request 7 []) sample_world)
       = Some r
       /\ ~ keeps_partial_results r "partial"
            [export_record [sample_row] "out.csv"].
Proof.
  split.
  - eexists. split; [reflexivity|]. split; reflexivity.
  - eexists. split; [reflexivity|].
    intros (_ & H & _). specialize (H _ (or_introl eq_refl)).
    vm_compute in H. exact H.
Qed.

(** C6 at its failing input.  The operation raises an Exception whose
    [str] is empty (a bare [raise Exception()], a failed [assert]) after
    printing and exporting: [run_analysis] hands back the empty string as
    the error, and the endpoint, testing it with [if err:], answers as for a
    success, with a null [error]. *)
Lemma empty_message_reported_as_success :
  snd (run_analysis (sample_host (op_partial_then (PyException ""))) 7 []
         default_timeout sample_world)
  = ok ("partial", [export_record [sample_row] "out.csv"], Some "")
  /\ answered (analyze plain_decimal
                (sample_host (op_partial_then (PyException "")))
                (sample_request 7 []) sample_world)
     = Some (mk_response
               (JObj [("output", JStr "partial");
                      ("exports", JList [export_record [sample_row] "out.csv"]);
                      ("error", JNull)]) 200).
Proof. split; reflexivity. Qed.

(** An Exception raised by the operation never leaves [run_analysis], and
    the endpoint answers it with status 200. *)
Lemma engine_exception_contained (int_of_str : string -> py Z) (h : host)
    (req : request_body) (w : world) (option : Z) (q : list string)
    (st : run_state) (msg : string) :
  validate int_of_str req = ok (option, inr q) ->
  operation_run h option q w = Some (st, Failed (PyException msg)) ->
  snd (run_analysis h option q default_timeout w)
  = ok (captured st, exports st, Some msg)
  /\ exists r, answered (analyze int_of_str h req w) = Some r /\ status r = 200.
Proof.
  intros Hv Hrun.
  pose proof (run_analysis_result h option q default_timeout w st _ Hrun) as R.
  simpl in R. split; [exact R|].
  rewrite (analyze_runs int_of_str h req w option q Hv).
  destruct (run_analysis h option q default_timeout w) as [w' r].
  simpl in R. subst r. unfold answered, shape_response. simpl.
  destruct (negb (str_empty msg)); eexists; split; reflexivity.
Qed.

(** ** Export records *)

(** Split every test and every match on a fallible step in the goal. *)
Ltac split_branches :=
  repeat match goal with
         | |- context [if ?b then _ else _] => destruct b eqn:?; simpl
         | |- context [py_bind ?m _] => destruct m eqn:?; simpl
         end.

Lemma domain_and_subdomains_early (params : json) (r : response) :
  domain_and_subdomains params = ok (inl r) -> exists msg, r = rejection msg.
Proof.
  unfold domain_and_subdomains. split_branches; intros H;
    try discriminate; injection H as <-; eauto.
Qed.

Lemma answer_queue_early (option : Z) (params : json) (r : response) :
  answer_queue option params = ok (inl r) -> exists msg, r = rejection msg.
Proof.
  unfold answer_queue.
  repeat match goal with
         | |- context [if ?a =? ?b then _ else _] => destruct (a =? b)
         end;
    try apply domain_and_subdomains_early;
    split_branches; intros H; try discriminate; injection H as <-; eauto.
Qed.

Lemma validate_early (int_of_str : string -> py Z) (req : request_body)
    (option : Z) (r : response) :
  validate int_of_str req = ok (option, inl r) -> exists msg, r = rejection msg.
Proof.
  unfold validate. destruct req as [m|j]; [discriminate|].
  destruct (selector_of int_of_str j) as [o|]; [|discriminate]. simpl.
  destruct (params_of j) as [p|]; [|discriminate]. simpl.
  destruct (answer_queue o p) as [[e|q]|] eqn:E; simpl; try discriminate.
  intros H. injection H as _ <-. exact (answer_queue_early o p e E).
Qed.

(** The exports of any response come from a triple [run_analysis]
    returned. *)
Lemma response_exports_origin (int_of_str : string -> py Z) (h : host)
    (req : request_body) (w : world) (r : response) :
  answered (analyze int_of_str h req w) = Some r ->
  response_exports r = []
  \/ exists option q out err,
       snd (run_analysis h option q default_timeout w)
       = ok (out, response_exports r, err).
Proof.
  unfold answered.
  destruct (validate int_of_str req) as [[option [early|q]]|e] eqn:V.
  - rewrite (analyze_early int_of_str h req w option early V). simpl.
    intros H. injection H as <-.
    destruct (validate_early int_of_str req option early V) as [msg ->].
    left. reflexivity.
  - rewrite (analyze_runs int_of_str h req w option q V).
    destruct (run_analysis h option q default_timeout w)
      as [w' [[[out exps] err]|[m|m]]] eqn:R; simpl.
    + intros H. injection H as <-. unfold shape_response.
      destruct (err_truthy err); [left; reflexivity|].
      right. exists option, q, out, err. rewrite R. reflexivity.
    + intros H. injection H as <-. left. reflexivity.
    + discriminate.
  - unfold analyze, analyze_try. rewrite V.
    destruct e as [m|m]; simpl; [|discriminate].
    intros H. injection H as <-. left. reflexivity.
Qed.

(** C2 (as amended).  An export call appends to [exports] exactly one
    record, a dict with exactly the two keys [filename] and [data], in that
    order, bound to the file name and to the rows it was passed; every
    element of the [exports] list of every response of the endpoint is such
    a record. *)
Theorem export_record_fields :
  (forall data filename exps,
      fst (mock_save_to_csv_simple data filename exps)
      = (exps ++ [export_record data filename])%list
      /\ field_names (export_record data filename) = ["filename"; "data"]
      /\ export_record data filename
         = JObj [("filename", JStr filename); ("data", JList (map JObj data))])
  /\ (forall int_of_str h req w r e,
        answered (analyze int_of_str h req w) = Some r ->
        In e (response_exports r) ->
        filename_data_record e /\ field_names e = ["filename"; "data"]).
Proof.
  split.
  - intros data filename exps. repeat split.
  - intros int_of_str h req w r e Hr He.
    assert (F : Forall filename_data_record (response_exports r)).
    { destruct (response_exports_origin int_of_str h req w r Hr)
        as [E|(option & q & out & err & R)].
      - rewrite E. constructor.
      - exact (run_analysis_exports_shape h option q default_timeout w _ _ _ R). }
    rewrite Forall_forall in F. specialize (F e He).
    split; [exact F|]. destruct F as (data & filename & ->). reflexivity.
Qed.

Lemma export_record_fields_witness :
  answered (analyze plain_decimal (sample_host op_export)
              (sample_request 6 [("domain_url", JStr "example.com")])
              sample_world)
  = Some (mk_response
            (JObj [("output", JStr "saved");
                   ("exports", JList [export_record [sample_row] "out.csv"]);
                   ("error", JNull)]) 200)
  /\ field_names (export_record [sample_row] "out.csv") = ["filename"; "data"].
Proof.
  split; [reflexivity|].
  refine (proj2 (proj2 export_record_fields plain_decimal
                   (sample_host op_export)
                   (sample_request 6 [("domain_url", JStr "example.com")])
                   sample_world _ _ _ _)).
  - reflexivity.
  - left. reflexivity.
Defined.

(** C2 as stated fails: the record an export call appends has no field
    [name] and no field [payload]. *)
Lemma export_record_not_name_payload :
  exists e,
    fst (mock_save_to_csv_simple [sample_row] "out.csv" []) = [e]
    /\ ~ name_payload_record e.
Proof.
  eexists. split; [reflexivity|].
  intros (H & _). vm_compute in H. discriminate.
Qed.

(** ** The derived answer queue *)

Lemma default_scheme_is_scheme_defaulted (u : string) :
  default_scheme u = scheme_defaulted u.
Proof.
  unfold default_scheme, scheme_defaulted, startswith_http, no_scheme_given.
  destruct (prefix "http://" u), (prefix "https://" u); reflexivity.
Qed.


Lemma stripped_param_supplied (fields : list (string * json)) (key : string) :
  supplied fields key ->
  stripped_param (JObj fields) key = ok (strip (param_text fields key))
  /\ str_empty (strip (param_text fields key)) = false.
Proof.
  intros (s & Ha & Hs). unfold stripped_param, param_text, param_value.
  simpl. rewrite Ha. simpl.
  assert (Hne : str_empty s = false)
    by (destruct s; [exfalso; apply Hs; reflexivity | reflexivity]).
  unfold py_or. simpl. rewrite Hne. simpl.
  split; [reflexivity|]. apply str_empty_false. exact Hs.
Qed.

Lemma subdomain_answer_flag (fields : list (string * json)) :
  (include_sub <- py_get (JObj fields) "include_subdomains" (JBool false) ;;
   ok (subdomain_answer include_sub))
  = ok (if include_subdomains_flag fields then "s" else "n").
Proof. reflexivity. Qed.

Lemma selector_cases (option : Z) :
  valid_selector option ->
  option = 1 \/ option = 2 \/ option = 3 \/ option = 4
  \/ option = 5 \/ option = 6 \/ option = 7 \/ option = 8.
Proof. unfold valid_selector. lia. Qed.

(** Rewrite with what is known of a supplied parameter. *)
Ltac use_supplied H key :=
  let S := fresh "S" in
  let E := fresh "E" in
  destruct (stripped_param_supplied _ key (H key ltac:(simpl; auto))) as [S E];
  rewrite S; simpl; rewrite ?E; simpl.

(** C4 (as amended).  For every selector in 1..8 and every parameter object
    in which each required parameter is a string that is not blank, the
    answers handed to [run_analysis] are those of the table read with every
    string parameter stripped of surrounding whitespace first; a value has a
    scheme when it begins with http:// or https://. *)
Theorem answer_queue_table (option : Z) (fields : list (string * json)) :
  valid_selector option ->
  (forall key, In key (required_params option) -> supplied fields key) ->
  answer_queue option (JObj fields)
  = ok (inr (table_queue option (fun key => strip (param_text fields key))
                         (include_subdomains_flag fields))).
Proof.
  intros Hv Hs.
  destruct (selector_cases option Hv)
    as [->|[->|[->|[->|[->|[->|[->| ->]]]]]]];
    unfold answer_queue, domain_and_subdomains; simpl.
  - use_supplied Hs "domain_url".
    rewrite default_scheme_is_scheme_defaulted.
    unfold subdomain_answer, include_subdomains_flag.
    destruct (assoc "include_subdomains" fields); reflexivity.
  - use_supplied Hs "niche". reflexivity.
  - use_supplied Hs "url".
    rewrite default_scheme_is_scheme_defaulted. reflexivity.
  - use_supplied Hs "keyword". reflexivity.
  - use_supplied Hs "domain_url". use_supplied Hs "theme".
    rewrite default_scheme_is_scheme_defaulted. reflexivity.
  - use_supplied Hs "domain_url".
    rewrite default_scheme_is_scheme_defaulted.
    unfold subdomain_answer, include_subdomains_flag.
    destruct (assoc "include_subdomains" fields); reflexivity.
  - reflexivity.
  - reflexivity.
Qed.

Lemma supplied_example_com (rest : list (string * json)) :
  forall key, In key (required_params 1) ->
              supplied (("domain_url", JStr "example.com") :: rest) key.
Proof.
  intros key [<-|[]]. exists "example.com". split; [reflexivity|discriminate].
Qed.

Lemma answer_queue_table_witness :
  answer_queue 1 (JObj [("domain_url", JStr "example.com")])
  = ok (inr ["https://example.com"; "n"])
  /\ answer_queue 1 (JObj [("domain_url", JStr "example.com");
                           ("include_subdomains", JBool false)])
     = ok (inr ["https://example.com"; "n"])
  /\ answer_queue 1 (JObj [("domain_url", JStr "example.com");
                           ("include_subdomains", JBool true)])
     = ok (inr ["https://example.com"; "s"]).
Proof.
  assert (V : valid_selector 1) by (unfold valid_selector; lia).
  split; [|split].
  - exact (answer_queue_table 1 _ V (supplied_example_com [])).
  - exact (answer_queue_table 1 _ V (supplied_example_com _)).
  - exact (answer_queue_table 1 _ V (supplied_example_com _)).
Defined.

(** C4 as stated fails: with a leading space in [domain_url] the table,
    read with the parameter as sent, gives "https:// example.com"; the code
    gives "https://example.com". *)
Lemma answer_queue_not_table_on_padded :
  valid_selector 1
  /\ (forall key, In key (required_params 1) ->
                  supplied [("domain_url", JStr " example.com")] key)
  /\ answer_queue 1 (JObj [("domain_url", JStr " example.com")])
     = ok (inr ["https://example.com"; "n"])
  /\ table_queue 1 (param_text [("domain_url", JStr " example.com")])
       (include_subdomains_flag [("domain_url", JStr " example.com")])
     = ["https:// example.com"; "n"]
  /\ ~ matches_table 1 [("domain_url", JStr " example.com")].
Proof.
  split; [unfold valid_selector; lia|]. split; [|split; [|split]].
  - intros key [<-|[]]. exists " example.com". split; [reflexivity|].
    vm_compute. discriminate.
  - reflexivity.
  - reflexivity.
  - unfold matches_table. vm_compute. discriminate.
Qed.

(** ** Missing parameters *)











(** The same for a required parameter that is a number while another is
    missing. *)
Lemma ill_typed_parameter_is_server_fault :
  analyze plain_decimal (sample_host op_echo_three)
    (sample_request 5 [("domain_url", JInt 123)]) sample_world
  = (sample_world,
     ok (mk_response
           (JObj [("error", JStr "'int' object has no attribute 'strip'")]) 500)).
Proof. reflexivity. Qed.

(** ** Answers to prompts *)

Lemma answers_to_nil (n : nat) : answers_to n [] = repeat "" n.
Proof.
  unfold answers_to. rewrite firstn_nil. simpl. rewrite Nat.sub_0_r. reflexivity.
Qed.

Lemma answers_to_cons (n : nat) (a : string) (queue : list string) :
  answers_to (S n) (a :: queue) = strip a :: answers_to n queue.
Proof. reflexivity. Qed.

Lemma exec_ask_all (prompts : list string) :
  forall (k : list string -> engine_op) (st : run_state),
    exec (ask_all prompts k) st
    = exec (k (answers_to (List.length prompts) (input_queue st)))
           (mk_run (rs_world st) (captured st) (exports st)
                   (skipn (List.length prompts) (input_queue st))).
Proof.
  induction prompts as [|p rest IH]; intros k st.
  - simpl. destruct st; reflexivity.
  - simpl ask_all. simpl exec. destruct (input_queue st) as [|a queue] eqn:Q.
    + simpl mock_input. cbv iota beta. rewrite IH. simpl.
      rewrite !answers_to_nil, skipn_nil. reflexivity.
    + simpl mock_input. cbv iota beta. rewrite IH. simpl.
      rewrite answers_to_cons. reflexivity.
Qed.

Lemma nth_answers_to (n i : nat) (queue : list string) (d : string) :
  (i < n)%nat ->
  nth i (answers_to n queue) d
  = if (i <? List.length queue)%nat then strip (nth i queue d) else "".
Proof.
  revert i queue. induction n as [|n IH]; intros i queue Hi; [lia|].
  destruct queue as [|a queue].
  - rewrite answers_to_nil. simpl Nat.ltb.
    destruct i; simpl; [reflexivity|].
    apply nth_repeat_lt. lia.
  - rewrite answers_to_cons. destruct i as [|i]; [reflexivity|].
    simpl nth. rewrite IH by lia. reflexivity.
Qed.

(** C5 (as amended).  An operation that raises a series of prompts is
    continued with the answers [answers_to]: the queued answers front to
    back, each stripped of leading and trailing whitespace as [mock_input]
    hands it over, then the empty string for every prompt past the end of
    the queue; reading past the end raises nothing, the operation simply
    goes on. *)
Theorem prompts_beyond_queue (prompts : list string)
    (k : list string -> engine_op) (st : run_state) :
  let n := List.length prompts in
  let queue := input_queue st in
  exec (ask_all prompts k) st
  = exec (k (answers_to n queue))
         (mk_run (rs_world st) (captured st) (exports st) (skipn n queue))
  /\ answers_to n queue
     = (map strip (firstn n queue) ++ repeat "" (n - List.length queue))%list
  /\ (forall i d, (i < n)%nat -> (i < List.length queue)%nat ->
                  nth i (answers_to n queue) d = strip (nth i queue d))
  /\ (forall i d, (i < n)%nat -> (List.length queue <= i)%nat ->
                  nth i (answers_to n queue) d = "")
  /\ (forall prompt, mock_input prompt [] = ("", [])).
Proof.
  cbv zeta. split; [apply exec_ask_all|]. split; [reflexivity|].
  split; [|split].
  - intros i d Hn Hq. rewrite nth_answers_to by exact Hn.
    apply Nat.ltb_lt in Hq. rewrite Hq. reflexivity.
  - intros i d Hn Hq. rewrite nth_answers_to by exact Hn.
    apply Nat.ltb_ge in Hq. rewrite Hq. reflexivity.
  - reflexivity.
Qed.

Lemma prompts_beyond_queue_witness :
  fst (exec op_echo_three (mk_run sample_world "" [] [" x "]))
  = mk_run sample_world "x||" [] []
  /\ nth 0 (answers_to 3 [" x "]) "?" = "x"
  /\ nth 2 (answers_to 3 [" x "]) "?" = "".
Proof.
  pose proof (prompts_beyond_queue ["a? "; "b? "; "c? "]
                (fun l => Print (String.concat "|" l) Return_)
                (mk_run sample_world "" [] [" x "])) as (E & _ & Hin & Hout & _).
  split; [|split].
  - unfold op_echo_three. rewrite E. reflexivity.
  - exact (Hin 0%nat "?" ltac:(simpl; lia) ltac:(simpl; lia)).
  - exact (Hout 2%nat "?" ltac:(simpl; lia) ltac:(simpl; lia)).
Defined.

(** C5 as stated fails: the queued answer " x " reaches the first prompt
    as "x", not as queued. *)
Lemma queued_answer_not_delivered_as_queued :
  nth 0 (answers_to 3 [" x "]) "" = "x"
  /\ ~ delivered_as_queued 3 [" x "].
Proof.
  split; [reflexivity|].
  intros H. specialize (H 0%nat ltac:(lia) ltac:(simpl; lia)).
  vm_compute in H. discriminate.
Qed.

(** C10.  A prompt answered from the queue receives the head of the queue
    stripped: the answer neither begins nor ends with a whitespace
    character, and a head made of whitespace only is delivered as the empty
    string, which is also what an empty queue delivers. *)
Theorem queued_answer_is_stripped (prompt : string) (k : string -> engine_op)
    (st : run_state) (a : string) (rest : list string) :
  input_queue st = a :: rest ->
  exec (Input prompt k) st
  = exec (k (strip a)) (mk_run (rs_world st) (captured st) (exports st) rest)
  /\ is_space_opt (first_char (strip a)) = false
  /\ is_space_opt (last_char (strip a)) = false
  /\ (all_space a = true ->
      strip a = "" /\ fst (mock_input prompt []) = strip a).
Proof.
  intros Q. split; [simpl; rewrite Q; reflexivity|].
  split; [apply strip_no_leading_space|].
  split; [apply strip_no_trailing_space|].
  intros H. rewrite (strip_all_space a H). split; reflexivity.
Qed.

Lemma queued_answer_is_stripped_witness :
  fst (exec (Input "site? " (fun a => Print a Return_))
            (mk_run sample_world "" [] ["  example.com" ++ chr 10; "n"]))
  = mk_run sample_world "example.com" [] ["n"]
  /\ strip ("  " ++ chr 9 ++ chr 160) = "".
Proof.
  pose proof (queued_answer_is_stripped "site? " (fun a => Print a Return_)
                (mk_run sample_world "" [] ["  example.com" ++ chr 10; "n"])
                ("  example.com" ++ chr 10) ["n"] eq_refl) as (E & _ & _ & _).
  pose proof (queued_answer_is_stripped "site? " (fun a => Print a Return_)
                (mk_run sample_world "" [] ["  " ++ chr 9 ++ chr 160])
                ("  " ++ chr 9 ++ chr 160) [] eq_refl) as (_ & _ & _ & B).
  split.
  - rewrite E. reflexivity.
  - exact (proj1 (B eq_refl)).
Defined.

(** * Further properties of the adapter *)

(** ** What an operation does to the locals of the call *)

(** The buffer and the export list only grow at their end, and the deque
    only loses answers at its front. *)
Theorem exec_accumulates (op : engine_op) :
  forall st,
    let st' := fst (exec op st) in
    exists text new consumed,
      captured st' = captured st ++ text
      /\ exports st' = (exports st ++ new)%list
      /\ Forall filename_data_record new
      /\ input_queue st' = skipn consumed (input_queue st).
Proof.
  induction op as [ | e | text k IH | prompt k IH | data f k IH
                  | data f k IH | dir k IH | k IH | path content k IH
                  | secs k IH ]; intros st; simpl.
  - exists "", [], 0%nat. rewrite app_nil_r.
    repeat split; auto. clear. induction (captured st); simpl; congruence.
  - exists "", [], 0%nat. rewrite app_nil_r.
    repeat split; auto. clear. induction (captured st); simpl; congruence.
  - match goal with
    | |- context [exec k ?s] => destruct (IH s) as (t & new & n & Hc & He & Hf & Hq)
    end.
    simpl in Hc, He, Hq. exists (text ++ t), new, n.
    rewrite Hc, He, Hq. repeat split; auto.
    clear. induction (captured st); simpl; congruence.
  - destruct (input_queue st) as [|a rest] eqn:Q; simpl.
    + match goal with
      | |- context [exec (k ?x) ?s] =>
          destruct (IH x s) as (t & new & n & Hc & He & Hf & Hq)
      end.
      simpl in Hc, He, Hq. exists t, new, 0%nat.
      rewrite Hc, He, Hq, skipn_nil. repeat split; auto.
    + match goal with
      | |- context [exec (k ?x) ?s] =>
          destruct (IH x s) as (t & new & n & Hc & He & Hf & Hq)
      end.
      simpl in Hc, He, Hq. exists t, new, (S n).
      rewrite Hc, He, Hq. repeat split; auto.
  - match goal with
    | |- context [exec (k ?x) ?s] =>
        destruct (IH x s) as (t & new & n & Hc & He & Hf & Hq)
    end.
    simpl in Hc, He, Hq.
    exists t, (export_record data f :: new), n.
    rewrite Hc, He, Hq, <- app_assoc. repeat split; auto.
    constructor; auto. exists data, f. reflexivity.
  - match goal with
    | |- context [exec (k ?x) ?s] =>
        destruct (IH x s) as (t & new & n & Hc & He & Hf & Hq)
    end.
    simpl in Hc, He, Hq.
    exists t, (export_record data f :: new), n.
    rewrite Hc, He, Hq, <- app_assoc. repeat split; auto.
    constructor; auto. exists data, f. reflexivity.
  - destruct (os_chdir dir (rs_world st)) as [w r].
    match goal with
    | |- context [exec (k ?x) ?s] =>
        destruct (IH x s) as (t & new & n & Hc & He & Hf & Hq)
    end.
    simpl in Hc, He, Hq. exists t, new, n. auto.
  - destruct (IH (rs_world st) st) as (t & new & n & Hc & He & Hf & Hq).
    exists t, new, n. auto.
  - match goal with
    | |- context [exec k ?s] => destruct (IH s) as (t & new & n & Hc & He & Hf & Hq)
    end.
    simpl in Hc, He, Hq. exists t, new, n. auto.
  - match goal with
    | |- context [exec k ?s] => destruct (IH s) as (t & new & n & Hc & He & Hf & Hq)
    end.
    simpl in Hc, He, Hq. exists t, new, n. auto.
Qed.

(** A series of export calls leaves one record per call, in the order of
    the calls, after the records already there, and every call is told
    [True]. *)
Theorem exec_export_all (calls : list (list csv_row * string)) :
  forall (k : list bool -> engine_op) (st : run_state),
    exec (export_all calls k) st
    = exec (k (repeat true (List.length calls)))
           (mk_run (rs_world st) (captured st)
                   (exports st
                    ++ map (fun c => export_record (fst c) (snd c)) calls)%list
                   (input_queue st)).
Proof.
  induction calls as [|[data f] rest IH]; intros k st.
  - simpl. rewrite app_nil_r. destruct st; reflexivity.
  - simpl export_all. simpl exec. rewrite IH. simpl.
    rewrite <- app_assoc. reflexivity.
Qed.

(** ** The responses of the endpoint *)

Lemma shape_response_result_shaped (triple : analysis_result) :
  result_shaped (shape_response triple).
Proof.
  destruct triple as [[out exps] err]. unfold shape_response, result_shaped.
  destruct (err_truthy err); simpl;
    (split; [reflexivity|]; split; [reflexivity|];
     eexists; eexists; split; reflexivity).
Qed.

(** Every response has one of two shapes: status 200 with exactly the
    fields [output] (a string), [exports] (a list) and [error]; or status
    400 or 500 with the single field [error], a string. *)
Theorem response_shapes (int_of_str : string -> py Z) (h : host)
    (req : request_body) (w : world) (r : response) :
  answered (analyze int_of_str h req w) = Some r ->
  result_shaped r \/ error_shaped r.
Proof.
  unfold answered.
  destruct (validate int_of_str req) as [[option [early|q]]|e] eqn:V.
  - rewrite (analyze_early int_of_str h req w option early V). simpl.
    intros H. injection H as <-.
    destruct (validate_early int_of_str req option early V) as [msg ->].
    right. apply rejection_error_shaped.
  - rewrite (analyze_runs int_of_str h req w option q V).
    destruct (run_analysis h option q default_timeout w)
      as [w' [triple|[m|m]]]; simpl.
    + intros H. injection H as <-. left. apply shape_response_result_shaped.
    + intros H. injection H as <-. right.
      unfold error_shaped, field. simpl.
      split; [right; reflexivity|]. split; [reflexivity|]. eexists; reflexivity.
    + discriminate.
  - unfold analyze, analyze_try. rewrite V.
    destruct e as [m|m]; simpl; [|discriminate].
    intros H. injection H as <-. right.
    unfold error_shaped, field. simpl.
    split; [right; reflexivity|]. split; [reflexivity|]. eexists; reflexivity.
Qed.

Lemma response_shapes_witness :
  result_shaped
    (mk_response (JObj [("output", JStr "saved");
                        ("exports", JList [export_record [sample_row] "out.csv"]);
                        ("error", JNull)]) 200)
  \/ error_shaped
       (mk_response (JObj [("output", JStr "saved");
                           ("exports", JList [export_record [sample_row] "out.csv"]);
                           ("error", JNull)]) 200).
Proof.
  apply (response_shapes plain_decimal (sample_host op_export)
           (sample_request 6 [("domain_url", JStr "example.com")]) sample_world).
  reflexivity.
Defined.

(** In a 200 response the error and the exports exclude each other: either
    [error] is null, or it is a non-empty string and [exports] is empty. *)
Theorem error_excludes_exports (int_of_str : string -> py Z) (h : host)
    (req : request_body) (w : world) (r : response) :
  answered (analyze int_of_str h req w) = Some r ->
  status r = 200 ->
  field "error" r = Some JNull
  \/ (exists msg, msg <> "" /\ field "error" r = Some (JStr msg)
                  /\ field "exports" r = Some (JList [])).
Proof.
  unfold answered.
  destruct (validate int_of_str req) as [[option [early|q]]|e] eqn:V.
  - rewrite (analyze_early int_of_str h req w option early V). simpl.
    intros H. injection H as <-.
    destruct (validate_early int_of_str req option early V) as [msg ->].
    discriminate.
  - rewrite (analyze_runs int_of_str h req w option q V).
    destruct (run_analysis h option q default_timeout w)
      as [w' [[[out exps] err]|[m|m]]]; simpl.
    + intros H _. injection H as <-. unfold shape_response.
      destruct err as [m|]; simpl; [|left; reflexivity].
      destruct (str_empty m) eqn:E; simpl; [left; reflexivity|].
      right. exists m. split; [apply str_empty_false; exact E|].
      split; reflexivity.
    + intros H. injection H as <-. discriminate.
    + discriminate.
  - unfold analyze, analyze_try. rewrite V.
    destruct e as [m|m]; simpl; [|discriminate].
    intros H. injection H as <-. discriminate.
Qed.

Lemma error_excludes_exports_witness :
  field "error"
    (mk_response (JObj [("output", JStr "partial"); ("exports", JList []);
                        ("error", JStr "boom")]) 200) = Some JNull
  \/ (exists msg, msg <> ""
        /\ field "error"
             (mk_response (JObj [("output", JStr "partial"); ("exports", JList []);
                                 ("error", JStr "boom")]) 200) = Some (JStr msg)
        /\ field "exports"
             (mk_response (JObj [("output", JStr "partial"); ("exports", JList []);
                                 ("error", JStr "boom")]) 200) = Some (JList [])).
Proof.
  apply (error_excludes_exports plain_decimal
           (sample_host (op_partial_then (PyException "boom")))
           (sample_request 7 []) sample_world).
  - reflexivity.
  - reflexivity.
Defined.

(** A 400 response comes before anything is touched: the world is the one
    the request found. *)
Theorem client_fault_leaves_world (int_of_str : string -> py Z) (h : host)
    (req : request_body) (w : world) (r : response) :
  answered (analyze int_of_str h req w) = Some r ->
  status r = 400 ->
  fst (analyze int_of_str h req w) = w.
Proof.
  unfold answered.
  destruct (validate int_of_str req) as [[option [early|q]]|e] eqn:V.
  - rewrite (analyze_early int_of_str h req w option early V). reflexivity.
  - rewrite (analyze_runs int_of_str h req w option q V).
    destruct (run_analysis h option q default_timeout w)
      as [w' [triple|[m|m]]]; simpl.
    + intros H S. injection H as <-.
      destruct (shape_response_result_shaped triple) as (S200 & _).
      rewrite S200 in S. discriminate.
    + intros H S. injection H as <-. discriminate.
    + discriminate.
  - unfold analyze, analyze_try. rewrite V. destruct e; reflexivity.
Qed.

Lemma client_fault_leaves_world_witness :
  fst (analyze plain_decimal (sample_host op_echo_three)
         (sample_request 2 [("niche", JStr "   ")]) sample_world)
  = sample_world.
Proof.
  apply (client_fault_leaves_world plain_decimal (sample_host op_echo_three)
           (sample_request 2 [("niche", JStr "   ")]) sample_world
           (rejection (required_message "niche"))).
  - reflexivity.
  - reflexivity.
Defined.

Lemma run_analysis_bindings (h : host) (option : Z) (q : list string) (t : Z)
    (w : world) :
  cwd_unlinked w = false ->
  builtins_input (fst (run_analysis h option q t w)) = builtins_input w
  /\ sys_stdout (fst (run_analysis h option q t w)) = sys_stdout w.
Proof.
  intros Hc. destruct (exec_module h) as [m|e] eqn:Hm.
  - rewrite (run_analysis_unfold h option q t w m Hm Hc).
    destruct (guarded_call m option (mk_run (redirected h w) "" [] q)) as [st r].
    pose proof (restore_spec (builtins_input w) (sys_stdout w) (cwd w)
                             (rs_world st)) as S.
    simpl in S |- *. destruct S as (Si & So & _). auto.
  - rewrite (run_analysis_not_loaded h option q t w e Hm). auto.
Qed.

(** As long as the working directory of the process exists, [builtins.input]
    and [sys.stdout] are bound after a request to what they were bound to
    before, whatever the request and however it ends.  When that directory
    has been removed, a request that passes validation finds [os.getcwd()]
    raising on line 73, after both rebindings and outside any [try]: the
    endpoint answers 500 with the text of the FileNotFoundError and both
    globals stay bound to the hooks of the call. *)
Theorem analyze_keeps_bindings (int_of_str : string -> py Z) (h : host)
    (req : request_body) (w : world) :
  (cwd_unlinked w = false ->
   builtins_input (fst (analyze int_of_str h req w)) = builtins_input w
   /\ sys_stdout (fst (analyze int_of_str h req w)) = sys_stdout w)
  /\ (forall option q m,
        validate int_of_str req = ok (option, inr q) ->
        exec_module h = ok m ->
        cwd_unlinked w = true ->
        analyze int_of_str h req w
        = (left_redirected w,
           ok (mk_response
                 (JObj [("error", JStr "[Errno 2] No such file or directory")])
                 500))
        /\ builtins_input (left_redirected w) = mock_input_hook
        /\ sys_stdout (left_redirected w) = stdout_capture).
Proof.
  split.
  - intros Hc.
    destruct (validate int_of_str req) as [[option [early|q]]|e] eqn:V.
    + rewrite (analyze_early int_of_str h req w option early V). auto.
    + rewrite (analyze_runs int_of_str h req w option q V).
      destruct (run_analysis_bindings h option q default_timeout w Hc) as (Hi & Ho).
      destruct (run_analysis h option q default_timeout w)
        as [w' [triple|[m|m]]]; simpl in *; auto.
    + unfold analyze, analyze_try. rewrite V. destruct e; auto.
  - intros option q m V Hm Hc.
    rewrite (analyze_runs int_of_str h req w option q V).
    rewrite (run_analysis_no_cwd h option q default_timeout w m Hm Hc).
    split; [reflexivity|]. split; reflexivity.
Qed.

Lemma analyze_keeps_bindings_witness :
  (builtins_input
     (fst (analyze plain_decimal (sample_host (op_partial_then (PyException "boom")))
             (sample_request 7 []) sample_world))
   = host_input 0)
  /\ (builtins_input
        (fst (analyze plain_decimal (sample_host Return_)
                (sample_request 7 []) orphaned_world))
      = mock_input_hook
      /\ sys_stdout
           (fst (analyze plain_decimal (sample_host Return_)
                   (sample_request 7 []) orphaned_world))
         = stdout_capture).
Proof.
  split.
  - exact (proj1 (proj1 (analyze_keeps_bindings plain_decimal
                           (sample_host (op_partial_then (PyException "boom")))
                           (sample_request 7 []) sample_world) eq_refl)).
  - destruct (proj2 (analyze_keeps_bindings plain_decimal (sample_host Return_)
                       (sample_request 7 []) orphaned_world)
                    7 [] (every_operation Return_) eq_refl eq_refl eq_refl)
      as (E & Hi & Ho).
    rewrite E. split; [exact Hi|exact Ho].
Defined.

(** When validation passes and the operation returns, the response is a
    200 with the whole captured text, every export record in the order of
    the calls and a null error. *)
Theorem success_response (int_of_str : string -> py Z) (h : host)
    (req : request_body) (w : world) (option : Z) (q : list string)
    (st : run_state) :
  validate int_of_str req = ok (option, inr q) ->
  operation_run h option q w = Some (st, Finished) ->
  answered (analyze int_of_str h req w)
  = Some (mk_response (JObj [("output", JStr (captured st));
                             ("exports", JList (exports st));
                             ("error", JNull)]) 200).
Proof.
  intros Hv Hrun.
  pose proof (run_analysis_result h option q default_timeout w st _ Hrun) as R.
  rewrite (analyze_runs int_of_str h req w option q Hv).
  destruct (run_analysis h option q default_timeout w) as [w' r].
  simpl in R. subst r. reflexivity.
Qed.

Lemma success_response_witness :
  answered (analyze plain_decimal (sample_host op_echo_three)
              (sample_request 5 [("domain_url", JStr "example.com");
                                 ("theme", JStr " seo ")]) sample_world)
  = Some (mk_response (JObj [("output", JStr "https://example.com|seo|");
                             ("exports", JList []);
                             ("error", JNull)]) 200).
Proof.
  refine (success_response plain_decimal (sample_host op_echo_three)
            (sample_request 5 [("domain_url", JStr "example.com");
                               ("theme", JStr " seo ")]) sample_world 5
            ["https://example.com"; "seo"]
            (fst (exec op_echo_three
                    (mk_run (record_event (Call_operation 5)
                               (redirected (sample_host op_echo_three) sample_world))
                            "" [] ["https://example.com"; "seo"])))
            _ _).
  - reflexivity.
  - reflexivity.
Defined.

(** An exit that is not an Exception (SystemExit, KeyboardInterrupt) is
    caught by neither handler: it leaves [run_analysis] and [analyze] as it
    was raised, and no response is made. *)
Theorem base_exception_passes_through (int_of_str : string -> py Z) (h : host)
    (req : request_body) (w : world) (option : Z) (q : list string)
    (st : run_state) (msg : string) :
  validate int_of_str req = ok (option, inr q) ->
  operation_run h option q w = Some (st, Failed (PyBaseException msg)) ->
  snd (run_analysis h option q default_timeout w) = throw (PyBaseException msg)
  /\ snd (analyze int_of_str h req w) = throw (PyBaseException msg).
Proof.
  intros Hv Hrun.
  pose proof (run_analysis_result h option q default_timeout w st _ Hrun) as R.
  simpl in R. split; [exact R|].
  rewrite (analyze_runs int_of_str h req w option q Hv).
  destruct (run_analysis h option q default_timeout w) as [w' r].
  simpl in R. subst r. reflexivity.
Qed.

Lemma base_exception_passes_through_witness :
  snd (analyze plain_decimal
         (sample_host (op_partial_then (PyBaseException "exit")))
         (sample_request 8 []) sample_world)
  = throw (PyBaseException "exit").
Proof.
  refine (proj2 (base_exception_passes_through plain_decimal
                   (sample_host (op_partial_then (PyBaseException "exit")))
                   (sample_request 8 []) sample_world 8 []
                   (fst (exec (op_partial_then (PyBaseException "exit"))
                           (mk_run (record_event (Call_operation 8)
                                      (redirected
                                         (sample_host
                                            (op_partial_then (PyBaseException "exit")))
                                         sample_world))
                                   "" [] [])))
                   "exit" _ _)).
  - reflexivity.
  - reflexivity.
Defined.



(** The operation runs in the directory of the script when that directory
    can be entered, and otherwise, the OSError of line 75 being swallowed,
    in the directory the process was in: a file the operation writes under
    a relative name lands there, and is still on the disk after the call. *)
Theorem operation_runs_in_app_dir (app name content : string) (option : Z)
    (q : list string) (t : Z) (w : world) :
  cwd_unlinked w = false ->
  valid_selector option ->
  files (fst (run_analysis
                (mk_host app (ok (every_operation
                                    (Write_file name content Return_))))
                option q t w))
  = (join_step (if can_enter app w then app else cwd w) name, content)
      :: files w.
Proof.
  intros Hc Hv.
  set (h := mk_host app (ok (every_operation (Write_file name content Return_)))).
  assert (D : dispatch (every_operation (Write_file name content Return_)) option
              = Some (Write_file name content Return_)).
  { destruct (selector_cases option Hv)
      as [->|[->|[->|[->|[->|[->|[->| ->]]]]]]]; reflexivity. }
  assert (H : operation_run h option q w
              = Some (exec (Write_file name content Return_)
                        (mk_run (record_event (Call_operation option)
                                   (redirected h w)) "" [] q)))
    by (unfold operation_run; simpl; rewrite Hc, D; reflexivity).
  simpl in H.
  destruct (run_analysis_after_operation h option q t w _ _ H)
    as (_ & _ & _ & Hf & _).
  rewrite Hf. simpl. unfold redirected, chdir_or_pass, os_chdir, can_enter.
  simpl. destruct (existsb (String.eqb app) (enterable w)); reflexivity.
Qed.

Lemma operation_runs_in_app_dir_witness :
  files (fst (run_analysis
                (mk_host "/srv/kw/app"
                   (ok (every_operation
                          (Write_file "keyword_learning.db" "v1" Return_))))
                8 [] 600 sample_world))
  = [("/srv/kw/app/keyword_learning.db", "v1")].
Proof.
  apply (operation_runs_in_app_dir "/srv/kw/app" "keyword_learning.db" "v1"
           8 [] 600 sample_world).
  - reflexivity.
  - unfold valid_selector. lia.
Defined.

(** ** Answers as they are queued *)

Lemma lstrip_fixed (s : string) :
  is_space_opt (first_char s) = false -> lstrip s = s.
Proof. destruct s as [|c r]; simpl; auto. intros ->. reflexivity. Qed.

Lemma rstrip_fixed (s : string) :
  is_space_opt (last_char s) = false -> rstrip s = s.
Proof.
  induction s as [|c r IH]; simpl; auto.
  destruct r as [|c' r'].
  - simpl. intros ->. reflexivity.
  - intros H. rewrite (IH H). reflexivity.
Qed.

Lemma strip_fixed (s : string) :
  is_space_opt (first_char s) = false ->
  is_space_opt (last_char s) = false ->
  strip s = s.
Proof.
  intros Hf Hl. unfold strip. rewrite (lstrip_fixed s Hf). apply rstrip_fixed, Hl.
Qed.

Lemma strip_idempotent (s : string) : strip (strip s) = strip s.
Proof.
  apply strip_fixed; [apply strip_no_leading_space|apply strip_no_trailing_space].
Qed.

Lemma last_char_append (a b : string) :
  b <> "" -> last_char (a ++ b) = last_char b.
Proof.
  intros Hb. induction a as [|c r IH]; simpl; auto.
  destruct (r ++ b) as [|c' t] eqn:E.
  - destruct r; simpl in E; [congruence|discriminate].
  - exact IH.
Qed.

(** The scheme default yields a value that has a scheme, keeps a value that
    has one, and so changes nothing when applied again. *)
Theorem default_scheme_has_scheme (u : string) :
  startswith_http (default_scheme u) = true
  /\ (startswith_http u = true -> default_scheme u = u)
  /\ (startswith_http u = false -> default_scheme u = "https://" ++ u)
  /\ default_scheme (default_scheme u) = default_scheme u.
Proof.
  assert (P : forall v, startswith_http ("https://" ++ v) = true).
  { intros v. unfold startswith_http. apply orb_true_iff. right.
    simpl. repeat (destruct (ascii_dec _ _); [|congruence]).
    destruct v; reflexivity. }
  unfold default_scheme. destruct (startswith_http u) eqn:E.
  - rewrite E. repeat split; intros; try reflexivity; discriminate.
  - rewrite (P u). repeat split; intros; try reflexivity; discriminate.
Qed.

Lemma default_scheme_ready (t : string) :
  ready_answer t -> ready_answer (default_scheme t).
Proof.
  intros [Hne Hs]. unfold default_scheme.
  destruct (startswith_http t); [split; assumption|].
  split; [discriminate|].
  apply strip_fixed.
  - reflexivity.
  - change ("https://" ++ t) with ("https://" ++ t)%string.
    rewrite (last_char_append "https://" t Hne), <- Hs.
    apply strip_no_trailing_space.
Qed.

Lemma stripped_param_ready (params : json) (key : string) (t : string) :
  stripped_param params key = ok t -> str_empty t = false -> ready_answer t.
Proof.
  unfold stripped_param. destruct (py_get params key JNull) as [v|e]; simpl;
    [|discriminate].
  destruct (py_or v (JStr "")) as [| | |s| |]; simpl; try discriminate.
  intros H E. injection H as <-. split.
  - apply str_empty_false. exact E.
  - apply strip_idempotent.
Qed.

Lemma subdomain_answer_ready (v : json) : ready_answer (subdomain_answer v).
Proof.
  unfold subdomain_answer. destruct (truthy v); split;
    try discriminate; reflexivity.
Qed.

Lemma domain_and_subdomains_accepts (params : json) (q : list string) :
  domain_and_subdomains params = ok (inr q) ->
  List.length q = 2%nat /\ Forall ready_answer q.
Proof.
  unfold domain_and_subdomains.
  destruct (stripped_param params "domain_url") as [d|] eqn:D; simpl;
    [|discriminate].
  destruct (str_empty d) eqn:E; [discriminate|].
  destruct (py_get params "include_subdomains" (JBool false)) as [v|]; simpl;
    [|discriminate].
  intros H. injection H as <-. split; [reflexivity|].
  apply Forall_cons; [|apply Forall_cons; [|apply Forall_nil]].
  - apply default_scheme_ready, (stripped_param_ready params "domain_url" d D E).
  - apply subdomain_answer_ready.
Qed.

(** Whatever the parameters are, when [analyze] goes on to call
    [run_analysis] the selector is in 1..8, the number of answers is the one
    of the selector, and every answer is non-empty and free of surrounding
    whitespace, so that the prompts of the operation read the queue as it
    is. *)
Theorem accepted_queue_ready (option : Z) (params : json) (q : list string) :
  answer_queue option params = ok (inr q) ->
  valid_selector option
  /\ List.length q = queue_length option
  /\ Forall ready_answer q
  /\ answers_to (List.length q) q = q.
Proof.
  intros H.
  assert (G : valid_selector option
              /\ List.length q = queue_length option
              /\ Forall ready_answer q).
  { revert H. unfold answer_queue, queue_length, valid_selector.
    destruct (Z.eqb_spec option 1) as [->|N1].
    { intros H. destruct (domain_and_subdomains_accepts params q H).
      split; [lia|]. split; assumption. }
    destruct (Z.eqb_spec option 2) as [->|N2].
    { simpl. destruct (stripped_param params "niche") as [t|] eqn:D; simpl;
        [|discriminate].
      destruct (str_empty t) eqn:E; [discriminate|].
      intros H. injection H as <-. split; [lia|]. split; [reflexivity|].
      apply Forall_cons; [|apply Forall_nil].
      apply (stripped_param_ready params "niche" t D E). }
    destruct (Z.eqb_spec option 3) as [->|N3].
    { simpl. destruct (stripped_param params "url") as [t|] eqn:D; simpl;
        [|discriminate].
      destruct (str_empty t) eqn:E; [discriminate|].
      intros H. injection H as <-. split; [lia|]. split; [reflexivity|].
      apply Forall_cons; [|apply Forall_nil].
      apply default_scheme_ready, (stripped_param_ready params "url" t D E). }
    destruct (Z.eqb_spec option 4) as [->|N4].
    { simpl. destruct (stripped_param params "keyword") as [t|] eqn:D; simpl;
        [|discriminate].
      destruct (str_empty t) eqn:E; [discriminate|].
      intros H. injection H as <-. split; [lia|]. split; [reflexivity|].
      apply Forall_cons; [|apply Forall_nil].
      apply (stripped_param_ready params "keyword" t D E). }
    destruct (Z.eqb_spec option 5) as [->|N5].
    { simpl. destruct (stripped_param params "domain_url") as [d|] eqn:D; simpl;
        [|discriminate].
      destruct (stripped_param params "theme") as [t|] eqn:T; simpl;
        [|discriminate].
      destruct (str_empty d) eqn:Ed; [discriminate|].
      destruct (str_empty t) eqn:Et; [discriminate|]. simpl.
      intros H. injection H as <-. split; [lia|]. split; [reflexivity|].
      apply Forall_cons; [|apply Forall_cons; [|apply Forall_nil]].
      - apply default_scheme_ready, (stripped_param_ready params "domain_url" d D Ed).
      - apply (stripped_param_ready params "theme" t T Et). }
    destruct (Z.eqb_spec option 6) as [->|N6].
    { intros H. destruct (domain_and_subdomains_accepts params q H).
      split; [lia|]. split; assumption. }
    destruct (Z.eqb_spec option 7) as [->|N7].
    { simpl. intros H. injection H as <-. split; [lia|]. split; [reflexivity|].
      constructor. }
    destruct (Z.eqb_spec option 8) as [->|N8].
    { simpl. intros H. injection H as <-. split; [lia|]. split; [reflexivity|].
      constructor. }
    simpl. discriminate. }
  destruct G as (Gv & Gl & Gr). repeat split; try assumption; try apply Gv.
  unfold answers_to. rewrite firstn_all, Nat.sub_diag. simpl. rewrite app_nil_r.
  clear - Gr. induction Gr as [|a l [_ Ha] _ IH]; simpl; congruence.
Qed.

Lemma accepted_queue_ready_witness :
  answers_to 2 ["https://example.com"; "seo tools"]
  = ["https://example.com"; "seo tools"].
Proof.
  exact (proj2 (proj2 (proj2
           (accepted_queue_ready 5
              (JObj [("domain_url", JStr "  example.com");
                     ("theme", JStr ("seo tools" ++ chr 10))])
              ["https://example.com"; "seo tools"] eq_refl)))).
Defined.

(** ** Bodies and selectors at the edge *)

(** A body that is empty in Python's sense (null, false, 0, the empty
    string, list or object), and an object without the key [option], are
    read as selector 0 and answered with the 400 range message, the world
    untouched. *)
Theorem empty_body_is_range_error (int_of_str : string -> py Z) (h : host)
    (j : json) (w : world) :
  truthy j = false
  \/ (exists fields, j = JObj fields /\ assoc "option" fields = None) ->
  analyze int_of_str h (Parsed j) w = (w, ok (rejection option_range_message)).
Proof.
  intros H.
  assert (S : selector_of int_of_str j = ok 0).
  { unfold selector_of, py_or. destruct H as [F|(fields & -> & A)].
    - rewrite F. reflexivity.
    - destruct (truthy (JObj fields)); simpl; [rewrite A|]; reflexivity. }
  destruct (selector_needs_dict int_of_str j 0 S) as [fields D].
  apply (analyze_early int_of_str h (Parsed j) w 0).
  rewrite (validate_parsed int_of_str j 0
             (match assoc "params" fields with Some v => v | None => JObj [] end) S).
  - reflexivity.
  - unfold params_of. rewrite D. reflexivity.
Qed.

Lemma empty_body_is_range_error_witness :
  analyze plain_decimal (sample_host op_echo_three)
    (Parsed (JObj [("params", JObj [("niche", JStr "shoes")])])) sample_world
  = (sample_world, ok (rejection option_range_message)).
Proof.
  apply empty_body_is_range_error. right.
  eexists. split; reflexivity.
Defined.

(** A body that is not an object and not empty (a non-empty list or string,
    a non-zero number, true) has no [get]: the catch-all answers 500 with
    the AttributeError text, the world untouched; a body [get_json] refuses
    is answered 500 with the text of that error. *)
Theorem non_object_body_is_server_fault (int_of_str : string -> py Z)
    (h : host) (w : world) :
  (forall j, truthy j = true -> (forall fields, j <> JObj fields) ->
     analyze int_of_str h (Parsed j) w
     = (w, ok (mk_response
                 (JObj [("error",
                         JStr ("'" ++ type_name j
                               ++ "' object has no attribute 'get'"))]) 500)))
  /\ (forall str_e,
        analyze int_of_str h (Unparsable str_e) w
        = (w, ok (mk_response (JObj [("error", JStr str_e)]) 500))).
Proof.
  split.
  - intros j T N. unfold analyze, analyze_try, validate, selector_of, py_or.
    rewrite T. destruct j; try reflexivity. exfalso. eapply N. reflexivity.
  - reflexivity.
Qed.

(** Selectors 7 and 8 never look at [params]: whatever the body holds
    under that key, even null or a number, the request goes through with an
    empty queue. *)
Theorem dashboard_and_export_ignore_params (int_of_str : string -> py Z)
    (j : json) (option : Z) :
  selector_of int_of_str j = ok option ->
  option = 7 \/ option = 8 ->
  validate int_of_str (Parsed j) = ok (option, inr []).
Proof.
  intros S H.
  destruct (selector_needs_dict int_of_str j option S) as [fields D].
  rewrite (validate_parsed int_of_str j option
             (match assoc "params" fields with Some v => v | None => JObj [] end) S).
  - destruct H as [-> | ->]; reflexivity.
  - unfold params_of. rewrite D. reflexivity.
Qed.

Lemma dashboard_and_export_ignore_params_witness :
  validate plain_decimal
    (Parsed (JObj [("option", JStr "8"); ("params", JNull)]))
  = ok (8, inr []).
Proof.
  apply dashboard_and_export_ignore_params.
  - reflexivity.
  - right. reflexivity.
Defined.

(** For selectors 1 and 6 the second answer follows the truth value of
    [include_subdomains], not its type: any non-empty string (the word
    false as well), any non-zero number, any non-empty list or object
    answers "s"; null, false, 0 and the empty values answer "n". *)
Theorem include_subdomains_by_truth (option : Z) (fields : list (string * json))
    (v : json) (q : list string) :
  option = 1 \/ option = 6 ->
  assoc "include_subdomains" fields = Some v ->
  answer_queue option (JObj fields) = ok (inr q) ->
  nth 1 q "" = (if truthy v then "s" else "n")
  /\ (forall s, v = JStr s -> s <> "" -> nth 1 q "" = "s").
Proof.
  intros Ho Hv Hq.
  assert (E : nth 1 q "" = if truthy v then "s" else "n").
  { assert (D : domain_and_subdomains (JObj fields) = ok (inr q))
      by (destruct Ho as [-> | ->]; exact Hq).
    revert D. unfold domain_and_subdomains.
    destruct (stripped_param (JObj fields) "domain_url") as [d|]; simpl;
      [|discriminate].
    destruct (str_empty d); [discriminate|]. rewrite Hv. simpl.
    intros H. injection H as <-. reflexivity. }
  split; [exact E|].
  intros s -> Hs. rewrite E. simpl.
  apply str_empty_false in Hs. rewrite Hs. reflexivity.
Qed.

Lemma include_subdomains_by_truth_witness :
  nth 1 ["https://example.com"; "s"] "" = "s".
Proof.
  refine (proj2 (include_subdomains_by_truth 6
                   [("domain_url", JStr "example.com");
                    ("include_subdomains", JStr "false")]
                   (JStr "false") ["https://example.com"; "s"] _ _ _)
                "false" eq_refl _).
  - right. reflexivity.
  - reflexivity.
  - reflexivity.
  - discriminate.
Defined.

(** ** Start-up *)

Lemma path_join_app (a : string) (p1 p2 : list string) :
  path_join (path_join a p1) p2 = path_join a (p1 ++ p2).
Proof. unfold path_join. rewrite fold_left_app. reflexivity. Qed.

(** The import of the module succeeds exactly when a file exists at
    [BASE_DIR/../app/arquivo-base-fixed.py]; the second lookup of lines
    27-28 joins the same components to the same path, so it never finds
    what the first one missed.  On success [SCRIPT_PATH] is that path and
    [APP_DIR] its directory. *)
Theorem module_paths_spec (path_exists : string -> bool) (BASE_DIR : string) :
  let script_path := path_join BASE_DIR [".."; "app"; script_name] in
  module_paths path_exists BASE_DIR
  = if path_exists script_path
    then ok (path_join BASE_DIR [".."; "app"], script_path)
    else throw (script_not_found script_path).
Proof.
  cbv zeta. unfold module_paths.
  rewrite (path_join_app BASE_DIR [".."; "app"] [script_name]). simpl app.
  destruct (path_exists (path_join BASE_DIR [".."; "app"; script_name])) eqn:E;
    cbn [negb]; rewrite ?E; reflexivity.
Qed.

(** Where [BASE_DIR] is the absolute directory of [app.py] (it starts with
    the separator and, unless it is the root, does not end with one), the
    script path is [BASE_DIR] followed by "/../app/arquivo-base-fixed.py". *)
Theorem script_path_of_base_dir (BASE_DIR : string) :
  BASE_DIR <> "" ->
  ends_with_sep BASE_DIR = false ->
  path_join BASE_DIR [".."; "app"; script_name]
  = BASE_DIR ++ "/../app/arquivo-base-fixed.py".
Proof.
  intros Hne Hsep.
  assert (N : forall a b, b <> "" -> str_empty (a ++ b) = false).
  { intros a b Hb. destruct a; simpl; [apply str_empty_false; exact Hb|reflexivity]. }
  assert (L : forall a b, b <> "" -> ends_with_sep (a ++ b) = ends_with_sep b).
  { intros a b Hb. unfold ends_with_sep. rewrite (last_char_append a b Hb).
    reflexivity. }
  assert (A : forall a b c : string, (a ++ b) ++ c = a ++ b ++ c).
  { intros a b c. induction a; simpl; congruence. }
  unfold path_join. simpl. unfold join_step at 3. simpl.
  apply str_empty_false in Hne. rewrite Hne, Hsep. simpl.
  unfold join_step at 2. simpl.
  rewrite (N BASE_DIR "/.." ltac:(discriminate)).
  rewrite (L BASE_DIR "/.." ltac:(discriminate)). simpl.
  unfold join_step. simpl.
  rewrite (N (BASE_DIR ++ "/..") "/app" ltac:(discriminate)).
  rewrite (L (BASE_DIR ++ "/..") "/app" ltac:(discriminate)). simpl.
  rewrite !A. reflexivity.
Qed.

Lemma script_path_of_base_dir_witness :
  path_join "/srv/kw/backend" [".."; "app"; script_name]
  = "/srv/kw/backend/../app/arquivo-base-fixed.py".
Proof.
  apply (script_path_of_base_dir "/srv/kw/backend").
  - discriminate.
  - reflexivity.
Defined.

(** ** Instances *)

Lemma default_scheme_has_scheme_witness :
  startswith_http "ftp://example.com" = false
  /\ default_scheme "ftp://example.com" = "https://ftp://example.com".
Proof.
  split; [reflexivity|].
  exact (proj1 (proj2 (proj2 (default_scheme_has_scheme "ftp://example.com")))
               eq_refl).
Defined.

Lemma non_object_body_is_server_fault_witness :
  analyze plain_decimal (sample_host op_echo_three)
    (Parsed (JList [JInt 1])) sample_world
  = (sample_world,
     ok (mk_response
           (JObj [("error", JStr "'list' object has no attribute 'get'")]) 500)).
Proof.
  refine (proj1 (non_object_body_is_server_fault plain_decimal
                   (sample_host op_echo_three) sample_world)
                (JList [JInt 1]) eq_refl _).
  discriminate.
Defined.

Lemma engine_exception_contained_witness :
  exists r,
    answered (analyze plain_decimal
                (sample_host (op_partial_then (PyException "")))
                (sample_request 4 [("keyword", JStr "seo")]) sample_world)
    = Some r
    /\ status r = 200.
Proof.
  refine (proj2 (engine_exception_contained plain_decimal
                   (sample_host (op_partial_then (PyException "")))
                   (sample_request 4 [("keyword", JStr "seo")]) sample_world
                   4 ["seo"]
                   (fst (exec (op_partial_then (PyException ""))
                           (mk_run (record_event (Call_operation 4)
                                      (redirected
                                         (sample_host
                                            (op_partial_then (PyException "")))
                                         sample_world))
                                   "" [] ["seo"])))
                   "" _ _)).
  - reflexivity.
  - reflexivity.
Defined.
